(** * quackcore: Markdown to DOCX conversion, retry and validation core

    A shallow embedding of
    [src/quackcore/integrations/pandoc/operations/md_to_docx.py]
    and the properties of its retry loop, its output validation and its
    metrics bookkeeping.

    Python objects that the module mutates or observes (the metrics object,
    the file system behind [fs.service], the pandoc engine, the logger, the
    clock) live in one explicit [State]; every function of the module is a
    computation in a state-and-exception monad over it. *)

From Stdlib Require Import ZArith QArith String Ascii List Bool Lia.
From stdpp Require Import base gmap strings pretty.

Import ListNotations.
Local Open Scope string_scope.
Local Open Scope list_scope.
Local Open Scope Z_scope.

(** ** Python values and strings *)

Module Py.

(** The classes of [Exception] the module tells apart; each stands for
    itself and its subclasses, [OtherException] for a class that derives
    from none of the others. What is no [Exception] ([KeyboardInterrupt],
    [SystemExit]) is outside the model. *)
Inductive ExnClass :=
| QuackIntegrationError
| TypeError
| ValueError
| OverflowError
| ImportError
| OtherException (name : string).

(** A raised [Exception]. [exn_msg] is what [str(e)] gives.
    Modelled from the spec: [quackcore.errors] is not in the sources at hand;
    the spec speaks of the exception message, so [str] of a
    [QuackIntegrationError(message, context)] is its message, and the context
    dictionary is kept aside in [exn_context]. *)
Record Exn := mkExn {
  exn_class : ExnClass;
  exn_msg : string;
  exn_context : list (string * string)
}.

Definition is_QuackIntegrationError (e : Exn) : bool :=
  match exn_class e with QuackIntegrationError => true | _ => false end.

Definition is_TypeError_or_ValueError (e : Exn) : bool :=
  match exn_class e with TypeError | ValueError => true | _ => false end.

Definition is_ImportError (e : Exn) : bool :=
  match exn_class e with ImportError => true | _ => false end.

Inductive outcome (A : Type) :=
| Ret (a : A)
| Raise (e : Exn).
Arguments Ret {A} a.
Arguments Raise {A} e.

(** A float: a finite one by its value and its [str()], an infinity, or
    not a number. *)
Inductive PyFloatVal :=
| Finite (q : Q) (repr : string)
| Infinity (negative : bool)
| NaN.

(** A dynamically typed value as [file_info.size] may hold it. [PyObj] is
    any other object, a [str] among them, given by what the module can see
    of it: its [str()] and what the builtin [int()] does on it (for a [str]
    that is the parsed number or a [ValueError]; which texts parse is the
    builtin's business and not decided here). *)
Inductive PyVal :=
| PyNone
| PyInt (z : Z)
| PyFloat (f : PyFloatVal)
| PyObj (text : string) (as_int : outcome Z).

(** The text a file holds after decoding: a sequence of code points. *)
Definition Text := list N.

(** What [str.isspace] accepts (CPython's [_PyUnicode_IsWhitespace]). *)
Definition is_space (c : N) : bool :=
  (((9 <=? c) && (c <=? 13)) || ((28 <=? c) && (c <=? 32))
   || (c =? 133) || (c =? 160) || (c =? 5760)
   || ((8192 <=? c) && (c <=? 8202))
   || (c =? 8232) || (c =? 8233) || (c =? 8239) || (c =? 8287) || (c =? 12288))%N.

Fixpoint lstrip (s : Text) : Text :=
  match s with
  | c :: r => if is_space c then lstrip r else s
  | [] => []
  end.

Fixpoint all_space (s : Text) : bool :=
  match s with
  | c :: r => is_space c && all_space r
  | [] => true
  end.

Fixpoint rstrip (s : Text) : Text :=
  match s with
  | c :: r => if all_space s then [] else c :: rstrip r
  | [] => []
  end.

(** [s.strip()] *)
Definition strip (s : Text) : Text := rstrip (lstrip s).

(** Truthiness of a text: non-empty. *)
Definition text_truthy (s : Text) : bool :=
  match s with [] => false | _ => true end.

(** The code points of a text written in ASCII. *)
Definition text_of (s : string) : Text := map N_of_ascii (list_ascii_of_string s).

(** Truthiness of a string: non-empty. *)
Definition truthy (s : string) : bool :=
  match s with EmptyString => false | _ => true end.

(** [str(v)], as an f-string interpolates it. *)
Definition str (v : PyVal) : string :=
  match v with
  | PyNone => "None"
  | PyInt z => pretty z
  | PyFloat (Finite _ r) => r
  | PyFloat (Infinity false) => "inf"
  | PyFloat (Infinity true) => "-inf"
  | PyFloat NaN => "nan"
  | PyObj t _ => t
  end.

(** The builtin [int(v)]: a finite float is cut towards zero, an infinite
    one is an [OverflowError], not-a-number a [ValueError]. *)
Definition int (v : PyVal) : outcome Z :=
  match v with
  | PyInt z => Ret z
  | PyFloat (Finite q _) => Ret (Z.quot (Qnum q) (Z.pos (Qden q)))
  | PyFloat (Infinity _) =>
      Raise (mkExn OverflowError "cannot convert float infinity to integer" [])
  | PyFloat NaN =>
      Raise (mkExn ValueError "cannot convert float NaN to integer" [])
  | PyNone =>
      Raise (mkExn TypeError
               "int() argument must be a string, a bytes-like object or a real number, not 'NoneType'" [])
  | PyObj _ o => o
  end.

(** [sep.join(l)] *)
Fixpoint join (sep : string) (l : list string) : string :=
  match l with
  | [] => ""
  | [x] => x
  | x :: r => x +:+ sep +:+ join sep r
  end.

(** [needle in hay] *)
Fixpoint contains (needle hay : string) : bool :=
  String.prefix needle hay ||
  match hay with
  | String _ r => contains needle r
  | EmptyString => false
  end.

Fixpoint has_char (c : ascii) (s : string) : bool :=
  match s with
  | String a r => Ascii.eqb a c || has_char c r
  | EmptyString => false
  end.

Definition double_quote : ascii := ascii_of_nat 34.

Definition hex_digit (n : nat) : ascii :=
  ascii_of_nat (if (n <? 10)%nat then 48 + n else 87 + n).

(** One character inside [repr] of a [str] quoted with [quote]. Bytes from
    128 on belong to characters outside ASCII and are kept. *)
Definition repr_char (quote : ascii) (a : ascii) : string :=
  let n := nat_of_ascii a in
  if Ascii.eqb a "\"%char then "\\"
  else if Ascii.eqb a quote then String "\"%char (String a EmptyString)
  else if (n =? 9)%nat then "\t"
  else if (n =? 10)%nat then "\n"
  else if (n =? 13)%nat then "\r"
  else if ((n <? 32) || (n =? 127))%nat
       then String "\"%char
              (String "x"%char
                 (String (hex_digit (n / 16)) (String (hex_digit (n mod 16)) EmptyString)))
       else String a EmptyString.

Fixpoint repr_chars (quote : ascii) (s : string) : string :=
  match s with
  | String a r => repr_char quote a +:+ repr_chars quote r
  | EmptyString => EmptyString
  end.

(** [repr(s)] of a [str]: in double quotes when the text has a single quote
    and no double quote, in single quotes otherwise. *)
Definition repr (s : string) : string :=
  let quote :=
    if has_char "'"%char s && negb (has_char double_quote s)
    then double_quote else "'"%char in
  String quote (repr_chars quote s) +:+ String quote EmptyString.

End Py.
Export Py.

(** ** pathlib.Path

    A path is kept as the text [str(path)] gives on a POSIX system. *)

Definition Path := string.

Fixpoint split_last_slash (s : string) : option (string * string) :=
  match s with
  | EmptyString => None
  | String a r =>
      match split_last_slash r with
      | Some (d, n) => Some (String a d, n)
      | None => if Ascii.eqb a "/"%char then Some (EmptyString, r) else None
      end
  end.

(** [path.name]: the last component, empty for [.] and for a root. *)
Definition path_name (p : Path) : string :=
  match split_last_slash p with
  | Some (_, n) => n
  | None => if String.eqb p "." then "" else p
  end.

(** [path.parent]: [.] for a single component, the root for what lies
    directly under it. *)
Definition path_parent (p : Path) : Path :=
  match split_last_slash p with
  | Some (EmptyString, _) => "/"
  | Some ("/", _) => "//"
  | Some (d, _) => d
  | None => "."
  end.

(** ** Data model *)

(** [config.retry_mechanism].
    Modelled from the spec: [PandocConfig] is not in the sources at hand. Spec 3
    gives the retry policy as [max_conversion_retries : int >= 1] and
    [conversion_retry_delay : seconds >= 0]; both are integers here, the delay
    in nanoseconds, the unit of the clock, with no bound built in, so that
    what the code does outside the bounds can be stated. *)
Record RetryConfig := mkRetryConfig {
  max_conversion_retries : Z;
  conversion_retry_delay : Z
}.

(** [config.validation].
    Modelled from the spec: spec 3 gives the validation policy as
    [min_file_size : bytes], [conversion_ratio_threshold : float > 0],
    [verify_structure : bool] and [check_links : bool]. The threshold is an
    exact rational here. *)
Record ValidationConfig := mkValidationConfig {
  min_file_size : Z;
  conversion_ratio_threshold : Q;
  verify_structure : bool;
  check_links : bool
}.

Record PandocConfig := mkPandocConfig {
  retry_mechanism : RetryConfig;
  validation : ValidationConfig;
  md_to_docx_extra_args : list string
}.

(** One per-file sample written by [track_metrics]. *)
Record Sample := mkSample {
  sample_start : Z;
  sample_end : Z;
  sample_original : Z;
  sample_converted : Z
}.

(** Modelled from the spec: [ConversionMetrics] is not in the sources at
    hand. Spec 3: two counters, a map from source path to the last error
    message, and per-file samples. *)
Record ConversionMetrics := mkMetrics {
  successful_conversions : Z;
  failed_conversions : Z;
  errors : gmap string string;
  samples : gmap string Sample
}.

(** [ConversionMetrics()] *)
Definition fresh_metrics : ConversionMetrics := mkMetrics 0 0 ∅ ∅.

(** The fields [convert_markdown_to_docx] fills in. Times are clock ticks. *)
Record ConversionDetails := mkDetails {
  source_format : string;
  target_format : string;
  conversion_time : Z;
  output_size : Z;
  input_size : Z
}.

(** [IntegrationResult.success_result(content, message=...)] and
    [IntegrationResult.error_result(error)].
    Modelled from the spec: [IntegrationResult] is not in the sources at hand.
    Spec 3: a tagged success or failure, exactly one of the two. *)
Inductive IntegrationResult :=
| success_result (content : Path * ConversionDetails) (message : string)
| error_result (error : string).

Definition is_success (r : IntegrationResult) : bool :=
  match r with success_result _ _ => true | error_result _ => false end.

(** ** The outside world *)

(** What [fs.service.get_file_info] returns. *)
Record FileInfo := mkFileInfo {
  fi_success : bool;
  fi_exists : bool;
  fi_size : PyVal
}.

(** What [fs.service.read_text] returns; the content may be [None]. *)
Record ReadResult := mkReadResult {
  rr_success : bool;
  rr_content : option Text;
  rr_error : string
}.

(** What [fs.create_directory] returns. *)
Record OperationResult := mkOperationResult {
  op_success : bool;
  op_error : string
}.

(** An attribute of [doc.core_properties]: absent ([hasattr] is false),
    [None], or a text. *)
Inductive Attr :=
| NoAttr
| AttrNone
| AttrText (s : string).

Record CoreProps := mkCoreProps {
  cp_title : Attr;
  cp_comments : Attr;
  cp_subject : Attr
}.

(** A python-docx document: [core_properties] may be missing. *)
Record Document := mkDocument {
  core_properties : option CoreProps
}.

(** Everything the module reads from its environment. [import_docx] is the
    result of [importlib.import_module('docx')]: the [Document] constructor
    when the import works. [validate_docx_structure] lives in
    [operations/utils.py]; its verdict on an artifact is an observation. *)
Record Env := mkEnv {
  env_now : Z;
  get_file_info : Path -> FileInfo;
  read_text : Path -> outcome ReadResult;
  create_directory : Path -> OperationResult;
  path_exists : Path -> bool;
  validate_docx_structure : Path -> bool -> bool * list string;
  import_docx : outcome (Path -> outcome Document)
}.

(** [pypandoc.convert_file]: given how many times it ran before, it rewrites
    the environment and returns or raises. *)
Definition Engine := nat -> Path -> Path -> list string -> Env -> outcome unit * Env.

Inductive Event :=
| LogDebug (msg : string)
| LogWarning (msg : string)
| LogError (msg : string)
| Attempt
| EngineCall (src dst : Path) (args : list string)
| Sleep (delay : Z).

(** The state a call runs in. [st_pypandoc] is [None] when [import pypandoc]
    fails. [st_trace] has the newest event first. [st_retry_count] is the
    local variable [retry_count] of [convert_markdown_to_docx]. *)
Record State := mkState {
  st_env : Env;
  st_pypandoc : option Engine;
  st_trace : list Event;
  st_metrics : ConversionMetrics;
  st_retry_count : Z
}.

Definition is_engine_call (e : Event) : bool :=
  match e with EngineCall _ _ _ => true | _ => false end.
Definition is_sleep (e : Event) : bool :=
  match e with Sleep _ => true | _ => false end.
Definition is_attempt (e : Event) : bool :=
  match e with Attempt => true | _ => false end.

Definition count_events (p : Event -> bool) (tr : list Event) : nat :=
  length (List.filter p tr).

Definition engine_calls (s : State) : nat := count_events is_engine_call (st_trace s).
Definition sleeps (s : State) : nat := count_events is_sleep (st_trace s).
Definition attempts_made (s : State) : nat := count_events is_attempt (st_trace s).

(** ** The monad: state passing with exceptions *)

Definition M (A : Type) : Type := State -> outcome A * State.

Definition ret {A} (a : A) : M A := fun s => (Ret a, s).
Definition raise {A} (e : Exn) : M A := fun s => (Raise e, s).

Definition bind {A B} (c : M A) (k : A -> M B) : M B :=
  fun s =>
    match c s with
    | (Ret a, s') => k a s'
    | (Raise e, s') => (Raise e, s')
    end.

(** [try: c except Exception as e: h e] *)
Definition try_except {A} (c : M A) (h : Exn -> M A) : M A :=
  fun s =>
    match c s with
    | (Ret a, s') => (Ret a, s')
    | (Raise e, s') => h e s'
    end.

Declare Scope py_scope.
Delimit Scope py_scope with py.
Notation "x <- c ;; k" := (bind c (fun x => k))
  (at level 100, c at next level, right associativity) : py_scope.
Notation "c ;;; k" := (bind c (fun _ => k))
  (at level 100, right associativity) : py_scope.
Local Open Scope py_scope.

Definition get : M State := fun s => (Ret s, s).

Definition emit (e : Event) : M unit :=
  fun s => (Ret tt, mkState (st_env s) (st_pypandoc s) (e :: st_trace s)
                            (st_metrics s) (st_retry_count s)).

Definition set_env (e : Env) : M unit :=
  fun s => (Ret tt, mkState e (st_pypandoc s) (st_trace s)
                            (st_metrics s) (st_retry_count s)).

Definition set_metrics (m : ConversionMetrics) : M unit :=
  fun s => (Ret tt, mkState (st_env s) (st_pypandoc s) (st_trace s)
                            m (st_retry_count s)).

Definition set_retry_count (n : Z) : M unit :=
  fun s => (Ret tt, mkState (st_env s) (st_pypandoc s) (st_trace s)
                            (st_metrics s) n).

(** [time.time()] *)
Definition time_time : M Z := fun s => (Ret (env_now (st_env s)), s).

Definition advance_clock (d : Z) (e : Env) : Env :=
  mkEnv (env_now e + d) (get_file_info e) (read_text e) (create_directory e)
        (path_exists e) (validate_docx_structure e) (import_docx e).

(** The first length, in nanoseconds, that no longer fits the 64-bit time
    type of CPython: [2^63]. *)
Definition sleep_limit : Z := 9223372036854775808.

(** [time.sleep(delay)], the delay in nanoseconds: the delay is converted to
    the time type first, which is an [OverflowError] when it does not fit,
    and a negative delay is a [ValueError]. *)
Definition time_sleep (delay : Z) : M unit :=
  emit (Sleep delay) ;;;
  if (delay <? - sleep_limit) || (sleep_limit <=? delay)
  then raise (mkExn OverflowError "timestamp too large to convert to C _PyTime_t" [])
  else if delay <? 0
       then raise (mkExn ValueError "sleep length must be non-negative" [])
       else (s <- get ;; set_env (advance_clock delay (st_env s))).

Definition logger_debug (msg : string) : M unit := emit (LogDebug msg).
Definition logger_warning (msg : string) : M unit := emit (LogWarning msg).
Definition logger_error (msg : string) : M unit := emit (LogError msg).

Definition QuackIntegrationError_ (message : string) (context : list (string * string)) : Exn :=
  mkExn QuackIntegrationError message context.

(** Run the part of an [outcome] that needs no state. *)
Definition lift {A} (o : outcome A) : M A := fun s => (o, s).

(** [try: c except (classes) as e: h e]: other exceptions pass through. *)
Definition try_except_when {A} (catches : Exn -> bool) (c : M A) (h : Exn -> M A) : M A :=
  try_except c (fun e => if catches e then h e else raise e).

(** ** Helpers of [operations/utils.py] *)

(** Modelled from the spec: [prepare_pandoc_args] is not in the sources at
    hand; the spec only says that the argument list is derived from the
    configuration. The list handed to the engine is the configured one. *)
Definition prepare_pandoc_args (config : PandocConfig) (source_fmt target_fmt : string)
    (extra_args : list string) : list string :=
  extra_args.

(** Modelled from the spec: [check_file_size] is not in the sources at hand.
    Spec 4.3 rule 2: the check fails if [output_size < min_file_size]. The
    spec does not fix the wording of the message. *)
Definition check_file_size (converted_size validation_min_size : Z) : bool * list string :=
  if converted_size <? validation_min_size
  then (false, ["Converted file size (" +:+ pretty converted_size
                +:+ " bytes) is below the minimum threshold ("
                +:+ pretty validation_min_size +:+ " bytes)"])
  else (true, []).

(** Modelled from the spec: [check_conversion_ratio] is not in the sources at
    hand. Spec 4.3 rule 3: the check fails if
    [output_size / max(input_size, 1) < conversion_ratio_threshold]. The spec
    does not fix the wording of the message. *)
Definition check_conversion_ratio (converted_size original_size : Z) (threshold : Q)
    : bool * list string :=
  if Qlt_le_dec (inject_Z converted_size / inject_Z (Z.max original_size 1)) threshold
  then (false, ["Conversion ratio is below the threshold: converted "
                +:+ pretty converted_size +:+ " bytes from "
                +:+ pretty original_size +:+ " bytes"])
  else (true, []).

(** Modelled from the spec: [track_metrics] is not in the sources at hand.
    Spec 3 and 4.4: on success the elapsed time and the input and output sizes
    are recorded as a per-file sample; the two counters and the error map
    belong to the orchestrator. *)
Definition track_metrics (filename : string) (start_time original_size converted_size : Z)
    (config : PandocConfig) : M unit :=
  end_time <- time_time ;;
  s <- get ;;
  let m := st_metrics s in
  set_metrics (mkMetrics (successful_conversions m) (failed_conversions m) (errors m)
                 (<[filename := mkSample start_time end_time original_size converted_size]>
                    (samples m))).

(** ** Updates of the metrics object *)

(** [metrics.successful_conversions += 1] *)
Definition incr_successful_conversions : M unit :=
  s <- get ;;
  let m := st_metrics s in
  set_metrics (mkMetrics (successful_conversions m + 1) (failed_conversions m)
                         (errors m) (samples m)).

(** [metrics.failed_conversions += 1] *)
Definition incr_failed_conversions : M unit :=
  s <- get ;;
  let m := st_metrics s in
  set_metrics (mkMetrics (successful_conversions m) (failed_conversions m + 1)
                         (errors m) (samples m)).

(** [metrics.errors[key] = msg] *)
Definition set_error (key msg : string) : M unit :=
  s <- get ;;
  let m := st_metrics s in
  set_metrics (mkMetrics (successful_conversions m) (failed_conversions m)
                         (<[key := msg]> (errors m)) (samples m)).

(** [retry_count += 1] *)
Definition incr_retry_count : M unit :=
  s <- get ;; set_retry_count (st_retry_count s + 1).

(** ** md_to_docx.py *)

Definition _validate_markdown_input (markdown_path : Path) : M Z :=
  s <- get ;;
  let file_info := get_file_info (st_env s) markdown_path in
  if negb (fi_success file_info) || negb (fi_exists file_info)
  then raise (QuackIntegrationError_
                ("Input file not found: " +:+ markdown_path)
                [("path", markdown_path); ("format", "markdown")])
  else
    original_size <-
      try_except_when is_TypeError_or_ValueError
        (match fi_size file_info with
         | PyNone => ret 0
         | _ => lift (int (fi_size file_info))
         end)
        (fun _ =>
           logger_warning ("Could not convert file size to integer: "
                           +:+ str (fi_size file_info) +:+ ", using default") ;;;
           ret 0) ;;
    try_except
      (s <- get ;;
       read_result <- lift (read_text (st_env s) markdown_path) ;;
       if negb (rr_success read_result)
       then raise (QuackIntegrationError_
                     ("Could not read Markdown file: " +:+ rr_error read_result)
                     [("path", markdown_path)])
       else
         match rr_content read_result with
         | None =>
             raise (mkExn (OtherException "AttributeError")
                      "'NoneType' object has no attribute 'strip'" [])
         | Some markdown_content =>
             if negb (text_truthy (strip markdown_content))
             then raise (QuackIntegrationError_
                           ("Markdown file is empty: " +:+ markdown_path)
                           [("path", markdown_path)])
             else ret tt
         end)
      (fun e =>
         if is_QuackIntegrationError e then raise e
         else raise (QuackIntegrationError_
                       ("Could not read Markdown file: " +:+ exn_msg e)
                       [("path", markdown_path)])) ;;;
    ret original_size.

(** [repr] of a list of strings, as the debug line prints it. *)
Definition repr_list (l : list string) : string :=
  "[" +:+ join ", " (map repr l) +:+ "]".

(** [import pypandoc; pypandoc.convert_file(...)] *)
Definition pypandoc_convert_file (src dst : Path) (extra_args : list string) : M unit :=
  s <- get ;;
  match st_pypandoc s with
  | None => raise (mkExn ImportError "No module named 'pypandoc'" [])
  | Some convert_file =>
      emit (EngineCall src dst extra_args) ;;;
      let '(r, env') := convert_file (engine_calls s) src dst extra_args (st_env s) in
      set_env env' ;;;
      lift r
  end.

Definition _convert_markdown_to_docx_once (markdown_path output_path : Path)
    (config : PandocConfig) : M unit :=
  emit Attempt ;;;
  let extra_args :=
    prepare_pandoc_args config "markdown" "docx" (md_to_docx_extra_args config) in
  s <- get ;;
  let dir_result := create_directory (st_env s) (path_parent output_path) in
  if negb (op_success dir_result)
  then raise (QuackIntegrationError_
                ("Failed to create output directory: " +:+ op_error dir_result)
                [("path", path_parent output_path); ("operation", "create_directory")])
  else
    logger_debug ("Converting " +:+ markdown_path +:+ " to DOCX with args: "
                  +:+ repr_list extra_args) ;;;
    try_except
      (pypandoc_convert_file markdown_path output_path extra_args)
      (fun e =>
         raise (QuackIntegrationError_
                  ("Pandoc conversion failed: " +:+ exn_msg e)
                  [("path", markdown_path); ("format", "markdown")])).

Definition _get_conversion_output (output_path : Path) (start_time : Z) : M (Z * Z) :=
  now <- time_time ;;
  let conversion_time := now - start_time in
  s <- get ;;
  let output_info := get_file_info (st_env s) output_path in
  if negb (fi_success output_info)
  then raise (QuackIntegrationError_
                ("Failed to get info for converted file: " +:+ output_path)
                [("path", output_path); ("format", "docx")])
  else
    output_size <-
      try_except_when is_TypeError_or_ValueError
        (match fi_size output_info with
         | PyNone => ret 0
         | _ => lift (int (fi_size output_info))
         end)
        (fun _ =>
           logger_warning ("Could not convert output size to integer: "
                           +:+ str (fi_size output_info) +:+ ", using default") ;;;
           ret 0) ;;
    ret (conversion_time, output_size).

(** Does the attribute exist, is it truthy, and does its text contain the
    source file name? *)
Definition attr_mentions (source_filename : string) (a : Attr) : bool :=
  match a with
  | AttrText s => truthy s && contains source_filename s
  | AttrNone => false
  | NoAttr => false
  end.

Definition _check_docx_metadata (docx_path source_path : Path) (check_links : bool) : M unit :=
  try_except
    (s <- get ;;
     match import_docx (st_env s) with
     | Raise e =>
         if is_ImportError e
         then logger_debug "python-docx not available for detailed metadata check"
         else raise e
     | Ret Document_ =>
         doc <- lift (Document_ docx_path) ;;
         let source_filename := path_name source_path in
         let source_found :=
           match core_properties doc with
           | Some core_props =>
               if attr_mentions source_filename (cp_title core_props) then true
               else if attr_mentions source_filename (cp_comments core_props) then true
               else if attr_mentions source_filename (cp_subject core_props) then true
               else false
           | None => false
           end in
         if negb source_found && check_links
         then logger_debug ("Source file reference missing in document metadata: "
                            +:+ source_filename)
         else ret tt
     end)
    (fun e => logger_debug ("Could not check document metadata: " +:+ exn_msg e)).

Definition validate_conversion (output_path input_path : Path) (original_size : Z)
    (config : PandocConfig) : M (list string) :=
  let validation_errors : list string := [] in
  let validation := validation config in
  s <- get ;;
  let output_info := get_file_info (st_env s) output_path in
  if negb (fi_success output_info) || negb (fi_exists output_info)
  then ret (validation_errors ++ ["Output file does not exist: " +:+ output_path])
  else
    output_size <-
      try_except_when is_TypeError_or_ValueError
        (match fi_size output_info with
         | PyNone => ret 0
         | _ => lift (int (fi_size output_info))
         end)
        (fun _ =>
           logger_warning ("Could not convert output size to integer: "
                           +:+ str (fi_size output_info) +:+ ", using default") ;;;
           ret 0) ;;
    let '(valid_size, size_errors) :=
      check_file_size output_size (min_file_size validation) in
    let validation_errors :=
      if negb valid_size then validation_errors ++ size_errors else validation_errors in
    let '(valid_ratio, ratio_errors) :=
      check_conversion_ratio output_size original_size
        (conversion_ratio_threshold validation) in
    let validation_errors :=
      if negb valid_ratio then validation_errors ++ ratio_errors else validation_errors in
    s <- get ;;
    if verify_structure validation && path_exists (st_env s) output_path
    then
      let '(is_valid, structure_errors) :=
        validate_docx_structure (st_env s) output_path (check_links validation) in
      let validation_errors :=
        if negb is_valid then validation_errors ++ structure_errors
        else validation_errors in
      _check_docx_metadata output_path input_path (check_links validation) ;;;
      ret validation_errors
    else ret validation_errors.

(** How one pass through the body of the [while] loop ends: with a [return]
    or by going round again. *)
Inductive LoopStep :=
| Returned (r : IntegrationResult)
| Continue.

(** The body of the inner [try] of [convert_markdown_to_docx]. *)
Definition attempt_body (markdown_path output_path : Path) (config : PandocConfig)
    (filename : string) (original_size max_retries start_time : Z) : M LoopStep :=
  _convert_markdown_to_docx_once markdown_path output_path config ;;;
  out <- _get_conversion_output output_path start_time ;;
  let '(conversion_time, output_size) := out in
  validation_errors <- validate_conversion output_path markdown_path original_size config ;;
  match validation_errors with
  | _ :: _ =>
      let error_str := join "; " validation_errors in
      logger_error ("Conversion validation failed: " +:+ error_str) ;;;
      incr_retry_count ;;;
      s <- get ;;
      if st_retry_count s >=? max_retries
      then
        incr_failed_conversions ;;;
        set_error markdown_path error_str ;;;
        ret (Returned (error_result
                         ("Conversion failed after maximum retries: " +:+ error_str)))
      else
        logger_warning ("Markdown to DOCX conversion attempt "
                        +:+ pretty (st_retry_count s) +:+ " failed: " +:+ error_str) ;;;
        time_sleep (conversion_retry_delay (retry_mechanism config)) ;;;
        ret Continue
  | [] =>
      track_metrics filename start_time original_size output_size config ;;;
      incr_successful_conversions ;;;
      let details := mkDetails "markdown" "docx" conversion_time output_size original_size in
      ret (Returned (success_result (output_path, details)
                       ("Successfully converted " +:+ markdown_path +:+ " to DOCX")))
  end.

(** The inner [except Exception as e] of [convert_markdown_to_docx]. *)
Definition attempt_handler (markdown_path : Path) (config : PandocConfig)
    (max_retries : Z) (e : Exn) : M LoopStep :=
  incr_retry_count ;;;
  s <- get ;;
  logger_warning ("Markdown to DOCX conversion attempt "
                  +:+ pretty (st_retry_count s) +:+ " failed: " +:+ exn_msg e) ;;;
  if st_retry_count s >=? max_retries
  then
    incr_failed_conversions ;;;
    set_error markdown_path (exn_msg e) ;;;
    let error_msg :=
      if is_QuackIntegrationError e
      then "Integration error: " +:+ exn_msg e
      else "Failed to convert Markdown to DOCX: " +:+ exn_msg e in
    ret (Returned (error_result error_msg))
  else
    time_sleep (conversion_retry_delay (retry_mechanism config)) ;;;
    ret Continue.

(** The [while retry_count < max_retries] loop. [fuel] bounds the number of
    passes; [None] means the bound was too small. *)
Fixpoint retry_loop (fuel : nat) (markdown_path output_path : Path) (config : PandocConfig)
    (filename : string) (original_size max_retries : Z) (s : State)
    : option (outcome IntegrationResult * State) :=
  if st_retry_count s <? max_retries
  then
    match fuel with
    | O => None
    | S fuel' =>
        let start_time := env_now (st_env s) in
        match try_except
                (attempt_body markdown_path output_path config filename
                   original_size max_retries start_time)
                (attempt_handler markdown_path config max_retries) s with
        | (Ret (Returned r), s') => Some (Ret r, s')
        | (Ret Continue, s') =>
            retry_loop fuel' markdown_path output_path config filename
              original_size max_retries s'
        | (Raise e, s') => Some (Raise e, s')
        end
    end
  else Some (Ret (error_result "Conversion failed after maximum retries"), s).

(** The outer [except Exception as e] of [convert_markdown_to_docx]. *)
Definition boundary_handler (markdown_path : Path) (e : Exn) : M IntegrationResult :=
  incr_failed_conversions ;;;
  set_error markdown_path (exn_msg e) ;;;
  ret (error_result ("Failed to convert Markdown to DOCX: " +:+ exn_msg e)).

(** What the caller hands over besides the arguments: the environment, the
    engine and the events so far. *)
Record World := mkWorld {
  w_env : Env;
  w_pypandoc : option Engine;
  w_trace : list Event
}.

Definition enter (w : World) (metrics : ConversionMetrics) : State :=
  mkState (w_env w) (w_pypandoc w) (w_trace w) metrics 0.

(** [convert_markdown_to_docx] with an explicit bound on the passes of its
    loop. *)
Definition convert_markdown_to_docx_fuel (fuel : nat) (markdown_path output_path : Path)
    (config : PandocConfig) (metrics : option ConversionMetrics) (w : World)
    : option (outcome IntegrationResult * State) :=
  let filename := path_name markdown_path in
  let metrics := match metrics with None => fresh_metrics | Some m => m end in
  let s := enter w metrics in
  let tried :=
    match _validate_markdown_input markdown_path s with
    | (Raise e, s1) => Some (Raise e, s1)
    | (Ret original_size, s1) =>
        let max_retries := max_conversion_retries (retry_mechanism config) in
        match set_retry_count 0 s1 with
        | (_, s2) =>
            retry_loop fuel markdown_path output_path config filename
              original_size max_retries s2
        end
    end in
  match tried with
  | None => None
  | Some (Ret r, s') => Some (Ret r, s')
  | Some (Raise e, s') => Some (boundary_handler markdown_path e s')
  end.

(** The loop makes at most [max_retries] passes, so that many units of fuel
    are enough ([retry_loop_total] below). *)
Definition convert_markdown_to_docx (markdown_path output_path : Path)
    (config : PandocConfig) (metrics : option ConversionMetrics) (w : World)
    : option (outcome IntegrationResult * State) :=
  convert_markdown_to_docx_fuel
    (Z.to_nat (max_conversion_retries (retry_mechanism config)))
    markdown_path output_path config metrics w.

(** ** Vocabulary of the properties *)

Definition is_log (e : Event) : bool :=
  match e with
  | LogDebug _ | LogWarning _ | LogError _ => true
  | _ => false
  end.

(** [s'] is [s] with some log lines added and nothing else changed. *)
Definition quiet (s s' : State) : Prop :=
  st_env s' = st_env s /\ st_pypandoc s' = st_pypandoc s /\
  st_metrics s' = st_metrics s /\ st_retry_count s' = st_retry_count s /\
  exists logs, st_trace s' = logs ++ st_trace s /\ forallb is_log logs = true.

(** What the block [try: x = int(size) if size is not None else 0 / except
    (TypeError, ValueError): ...; x = 0] makes of a size: [0] for [None] and
    for what [int] rejects with one of the two classes, the integer [int]
    gives, or the exception of another class that [int] raises and the block
    lets through. *)
Definition size_taken (v : PyVal) : outcome Z :=
  match v with
  | PyNone => Ret 0
  | _ => match int v with
         | Ret z => Ret z
         | Raise e => if is_TypeError_or_ValueError e then Ret 0 else Raise e
         end
  end.

(** The messages of the three checks on an output whose size is taken as
    [output_size], in the order [validate_conversion] collects them. *)
Definition check_messages (output_path : Path) (output_size original_size : Z)
    (config : PandocConfig) (env : Env) : list string :=
  let v := validation config in
  let size := check_file_size output_size (min_file_size v) in
  let ratio := check_conversion_ratio output_size original_size
                 (conversion_ratio_threshold v) in
  let structure := validate_docx_structure env output_path (check_links v) in
  (if fst size then [] else snd size)
  ++ (if fst ratio then [] else snd ratio)
  ++ (if verify_structure v && path_exists env output_path
      then (if fst structure then [] else snd structure)
      else []).

(** What [validate_conversion] returns or raises, read off the environment. *)
Definition validation_outcome (output_path : Path) (original_size : Z)
    (config : PandocConfig) (env : Env) : outcome (list string) :=
  let info := get_file_info env output_path in
  if negb (fi_success info) || negb (fi_exists info)
  then Ret ["Output file does not exist: " +:+ output_path]
  else
    match size_taken (fi_size info) with
    | Ret output_size =>
        Ret (check_messages output_path output_size original_size config env)
    | Raise e => Raise e
    end.

(** The delays [time.sleep] accepts. *)
Definition sleep_accepts (delay : Z) : Prop := 0 <= delay < sleep_limit.

(** What a run writes into the metrics object when it records a success
    for [filename], or a failure with [msg] under [key]. *)
Definition records_success (filename : string) (m m' : ConversionMetrics) : Prop :=
  successful_conversions m' = successful_conversions m + 1 /\
  failed_conversions m' = failed_conversions m /\
  errors m' = errors m /\
  exists smp, samples m' = <[filename := smp]> (samples m).

Definition records_failure (key msg : string) (m m' : ConversionMetrics) : Prop :=
  successful_conversions m' = successful_conversions m /\
  failed_conversions m' = failed_conversions m + 1 /\
  errors m' = <[key := msg]> (errors m) /\
  samples m' = samples m.

(** The loop has run [k] passes from [s] when it ends in [s'] with [o]. *)
Definition loop_post (markdown_path : Path) (config : PandocConfig) (filename : string)
    (max_retries : Z) (s : State) (o : outcome IntegrationResult) (s' : State) : Prop :=
  let delay := conversion_retry_delay (retry_mechanism config) in
  exists k : nat,
    st_pypandoc s' = st_pypandoc s /\
    attempts_made s' = (attempts_made s + k)%nat /\
    (engine_calls s <= engine_calls s' <= engine_calls s + k)%nat /\
    Z.of_nat k <= Z.max 0 (max_retries - st_retry_count s) /\
    match o with
    | Ret (success_result _ _) =>
        records_success filename (st_metrics s) (st_metrics s') /\ (1 <= k)%nat
        /\ (sleep_accepts delay -> (sleeps s' + 1 = sleeps s + k)%nat)
    | Ret (error_result msg) =>
        (st_retry_count s < max_retries
         /\ (exists m, records_failure markdown_path m (st_metrics s) (st_metrics s'))
         /\ (1 <= k)%nat /\ (sleep_accepts delay -> (sleeps s' + 1 = sleeps s + k)%nat))
        \/ (max_retries <= st_retry_count s /\ s' = s /\ k = O
            /\ msg = "Conversion failed after maximum retries")
    | Raise _ =>
        st_metrics s' = st_metrics s /\ ~ sleep_accepts delay /\ (1 <= k)%nat
    end.

Definition metrics_or_fresh (metrics : option ConversionMetrics) : ConversionMetrics :=
  match metrics with None => fresh_metrics | Some m => m end.



(** The state the loop starts in once input validation has returned in [s1]. *)
Definition loop_start (s1 : State) : State := snd (set_retry_count 0 s1).


(** The same state with another outcome of [import_module('docx')], that is
    with python-docx absent, broken, or returning other documents. *)
Definition with_docx (d : outcome (Path -> outcome Document)) (s : State) : State :=
  mkState (mkEnv (env_now (st_env s)) (get_file_info (st_env s)) (read_text (st_env s))
                 (create_directory (st_env s)) (path_exists (st_env s))
                 (validate_docx_structure (st_env s)) d)
          (st_pypandoc s) (st_trace s) (st_metrics s) (st_retry_count s).

Definition is_debug (e : Event) : bool :=
  match e with LogDebug _ => true | _ => false end.

(** Does one of title, comments and subject name the source file? *)
Definition metadata_mentions (source_filename : string) (doc : Document) : bool :=
  match core_properties doc with
  | Some core_props =>
      attr_mentions source_filename (cp_title core_props)
      || attr_mentions source_filename (cp_comments core_props)
      || attr_mentions source_filename (cp_subject core_props)
  | None => false
  end.

(** The events a call for these paths under this configuration is expected
    to add: engine runs on these paths with the prepared arguments, sleeps
    of the configured delay, attempts and log lines. *)
Definition expected_event (markdown_path output_path : Path) (config : PandocConfig)
    (e : Event) : Prop :=
  match e with
  | EngineCall src dst args =>
      src = markdown_path /\ dst = output_path
      /\ args = prepare_pandoc_args config "markdown" "docx" (md_to_docx_extra_args config)
  | Sleep d => d = conversion_retry_delay (retry_mechanism config)
  | _ => True
  end.

(** [s'] has the trace of [s] with expected events put in front. *)
Definition adds_expected_events (markdown_path output_path : Path) (config : PandocConfig)
    (s s' : State) : Prop :=
  exists evs, st_trace s' = evs ++ st_trace s
              /\ Forall (expected_event markdown_path output_path config) evs.

(** The three ways a failure message starts. *)
Definition failure_prefix (prefix : string) : Prop :=
  prefix = "Conversion failed after maximum retries: "
  \/ prefix = "Integration error: "
  \/ prefix = "Failed to convert Markdown to DOCX: ".

(** ** Concrete worlds

    The scenarios of the specification, as inputs the definitions above run
    on. *)

Module Scenario.

Definition source : Path := "docs/report.md".
Definition target : Path := "out/report.docx".

(** A 500-byte Markdown file and nothing else. *)
Definition base_env : Env :=
  mkEnv 1000
        (fun p => if String.eqb p source
                  then mkFileInfo true true (PyInt 500)
                  else mkFileInfo true false PyNone)
        (fun p => if String.eqb p source
                  then Ret (mkReadResult true (Some (text_of "# Report")) "")
                  else Ret (mkReadResult false None "No such file"))
        (fun _ => mkOperationResult true "")
        (fun p => String.eqb p source)
        (fun _ _ => (true, []))
        (Raise (mkExn ImportError "No module named 'docx'" [])).

(** The environment after the engine wrote [size] bytes to [dst]. *)
Definition write_artifact (dst : Path) (size : Z) (e : Env) : Env :=
  mkEnv (env_now e + 7)
        (fun p => if String.eqb p dst then mkFileInfo true true (PyInt size)
                  else get_file_info e p)
        (read_text e) (create_directory e)
        (fun p => String.eqb p dst || path_exists e p)
        (validate_docx_structure e) (import_docx e).

(** An engine that always writes an artifact of [size] bytes. *)
Definition engine_writes (size : Z) : Engine :=
  fun _ _ dst _ e => (Ret tt, write_artifact dst size e).

(** An engine that raises on its first run and writes [size] bytes after. *)
Definition engine_fails_once (size : Z) : Engine :=
  fun n _ dst _ e =>
    match n with
    | O => (Raise (mkExn (OtherException "RuntimeError") "pandoc died" []), e)
    | S _ => (Ret tt, write_artifact dst size e)
    end.

(** An engine that always raises. *)
Definition engine_broken : Engine :=
  fun _ _ _ _ e => (Raise (mkExn (OtherException "RuntimeError") "pandoc died" []), e).

Definition config (retries : Z) : PandocConfig :=
  mkPandocConfig (mkRetryConfig retries 2)
                 (mkValidationConfig 100 (1 # 2) false false)
                 [].

Definition world (engine : Engine) : World := mkWorld base_env (Some engine) [].

(** The same world without the input file. *)
Definition missing_env : Env :=
  mkEnv 1000 (fun _ => mkFileInfo true false PyNone)
        (read_text base_env) (create_directory base_env) (fun _ => false)
        (validate_docx_structure base_env) (import_docx base_env).

Definition missing_world (engine : Engine) : World := mkWorld missing_env (Some engine) [].

(** What a run shows of itself: the result, the two counters, the error
    map as a list, and the numbers of attempts, engine runs and sleeps. *)
Definition observe (r : option (outcome IntegrationResult * State)) :=
  match r with
  | Some (o, s) =>
      Some (o, successful_conversions (st_metrics s), failed_conversions (st_metrics s),
            map_to_list (errors (st_metrics s)),
            (attempts_made s, engine_calls s, sleeps s))
  | None => None
  end.

(** A metrics object that remembers an earlier failure of [source]. *)
Definition stale_metrics : ConversionMetrics :=
  mkMetrics 0 1 {[ source := "Pandoc conversion failed: pandoc died" ]} ∅.

(** An artifact of no bytes next to the 500-byte input. *)
Definition empty_artifact_state : State :=
  enter (mkWorld (write_artifact target 0 base_env) None []) fresh_metrics.


(** A file whose size the file service reports as the float infinity. *)
Definition infinite_size_state : State :=
  enter (mkWorld (mkEnv 0 (fun _ => mkFileInfo true true (PyFloat (Infinity false)))
                        (read_text base_env) (create_directory base_env)
                        (path_exists base_env) (validate_docx_structure base_env)
                        (import_docx base_env))
                 None []) fresh_metrics.

(** The configuration of the scenarios with a delay of one nanosecond below
    zero. *)
Definition negative_delay_config (retries : Z) : PandocConfig :=
  mkPandocConfig (mkRetryConfig retries (-1))
                 (mkValidationConfig 100 (1 # 2) false false)
                 [].

(** python-docx is there and the artifact's title names [source_name]. *)
Definition docx_titled (title : string) : outcome (Path -> outcome Document) :=
  Ret (fun _ => Ret (mkDocument (Some (mkCoreProps (AttrText title) AttrNone NoAttr)))).

Definition checked_state (d : outcome (Path -> outcome Document)) : State :=
  with_docx d (enter (mkWorld (write_artifact target 400 base_env) None []) fresh_metrics).

Definition checking_config : PandocConfig :=
  mkPandocConfig (mkRetryConfig 3 2) (mkValidationConfig 100 (1 # 2) true true) [].

Definition run_validation (d : outcome (Path -> outcome Document)) :=
  let '(o, s) := validate_conversion target source 500 checking_config (checked_state d) in
  (o, st_trace s).

(** A state with nothing logged and fresh metrics. *)
Definition state_of (e : Env) (engine : option Engine) : State :=
  enter (mkWorld e engine []) fresh_metrics.

(** The input holds white space only: a space, a no-break space, an
    ideographic space and a line feed. *)
Definition blank_env : Env :=
  mkEnv 1000 (get_file_info base_env)
        (fun _ => Ret (mkReadResult true (Some [32; 160; 12288; 10]%N) ""))
        (create_directory base_env) (path_exists base_env)
        (validate_docx_structure base_env) (import_docx base_env).


(** No directory can be created. *)
Definition no_directory_env : Env :=
  mkEnv 1000 (get_file_info base_env) (read_text base_env)
        (fun _ => mkOperationResult false "read-only file system")
        (path_exists base_env)
        (validate_docx_structure base_env) (import_docx base_env).

(** A 400-byte artifact that the structure check rejects without a word. *)
Definition silent_verdict_env : Env :=
  mkEnv 1000 (get_file_info (write_artifact target 400 base_env))
        (read_text base_env) (create_directory base_env)
        (path_exists (write_artifact target 400 base_env))
        (fun _ _ => (false, []))
        (import_docx base_env).

(** The document [docx_titled] opens. *)
Definition titled_document (title : string) : Document :=
  mkDocument (Some (mkCoreProps (AttrText title) AttrNone NoAttr)).

End Scenario.

(** ** Reasoning about computations *)

Example path_name_ex : path_name "docs/in/report.md" = "report.md".
Proof. reflexivity. Qed.

Example path_parent_ex : path_parent "out/report.docx" = "out".
Proof. reflexivity. Qed.

Example path_edges_ex :
  path_name "." = "" /\ path_name "/" = "" /\ path_parent "report.md" = "."
  /\ path_parent "/report.md" = "/" /\ path_parent "//report.md" = "//".
Proof. repeat split; reflexivity. Qed.

Example strip_ex :
  strip (text_of "  a b  ") = text_of "a b"
  /\ strip [160; 8195; 12288]%N = []
  /\ strip [8203]%N = [8203]%N.
Proof. repeat split; reflexivity. Qed.

Example int_ex :
  int (PyFloat (Finite (-7 # 2) "-3.5")) = Ret (-3)
  /\ exn_class <$> (match int (PyFloat (Infinity false)) with
                    | Raise e => Some e | Ret _ => None end) = Some OverflowError.
Proof. split; reflexivity. Qed.

Example repr_ex :
  repr_list ["--toc"; "it's"] = "['--toc', " +:+ String double_quote "it's"
                                +:+ String double_quote "]".
Proof. reflexivity. Qed.

Lemma bind_inv {A B} (c : M A) (k : A -> M B) s o s' :
  bind c k s = (o, s') ->
  (exists a s1, c s = (Ret a, s1) /\ k a s1 = (o, s')) \/
  (exists e, c s = (Raise e, s') /\ o = Raise e).
Proof.
  unfold bind. destruct (c s) as [[a|e] s1]; intros H.
  - left. eauto.
  - right. inversion H; subst. eauto.
Qed.

Lemma try_except_inv {A} (c : M A) (h : Exn -> M A) s o s' :
  try_except c h s = (o, s') ->
  (exists a, c s = (Ret a, s') /\ o = Ret a) \/
  (exists e s1, c s = (Raise e, s1) /\ h e s1 = (o, s')).
Proof.
  unfold try_except. destruct (c s) as [[a|e] s1]; intros H.
  - left. inversion H; subst. eauto.
  - right. eauto.
Qed.

Lemma quiet_refl s : quiet s s.
Proof. repeat split. exists []. auto. Qed.

Lemma quiet_trans s1 s2 s3 : quiet s1 s2 -> quiet s2 s3 -> quiet s1 s3.
Proof.
  intros (E1 & P1 & M1 & R1 & l1 & T1 & L1) (E2 & P2 & M2 & R2 & l2 & T2 & L2).
  repeat split; try congruence.
  exists (l2 ++ l1). split.
  - rewrite T2, T1. apply app_assoc.
  - rewrite forallb_app, L1, L2. reflexivity.
Qed.

Lemma quiet_log e s :
  is_log e = true -> quiet s (snd (emit e s)).
Proof.
  intros H. repeat split. exists [e]. simpl. rewrite H. auto.
Qed.

Lemma count_events_cons p e tr :
  count_events p (e :: tr)
  = if p e then S (count_events p tr) else count_events p tr.
Proof. unfold count_events. simpl. destruct (p e); reflexivity. Qed.

Lemma count_events_logs p logs tr :
  (forall e, is_log e = true -> p e = false) ->
  forallb is_log logs = true ->
  count_events p (logs ++ tr) = count_events p tr.
Proof.
  intros Hp. unfold count_events. induction logs as [|e logs IH]; simpl; intros H.
  - reflexivity.
  - apply andb_true_iff in H as [He Hl]. rewrite (Hp e He). auto.
Qed.

Lemma quiet_counts s s' :
  quiet s s' ->
  attempts_made s' = attempts_made s /\ engine_calls s' = engine_calls s /\
  sleeps s' = sleeps s.
Proof.
  intros (_ & _ & _ & _ & logs & T & L).
  unfold attempts_made, engine_calls, sleeps. rewrite T.
  repeat split; apply count_events_logs; auto; intros [] ?; simpl in *; congruence.
Qed.

#[local] Hint Resolve quiet_refl : core.

(** The block [try: x = int(size) if size is not None else 0 / except
    (TypeError, ValueError): logger.warning(...); x = 0] ends as
    [size_taken] says and adds log lines only. *)
Lemma size_block v msg s :
  exists s',
    try_except_when is_TypeError_or_ValueError
      (match v with
       | PyNone => ret 0
       | _ => lift (int v)
       end)
      (fun _ => logger_warning msg ;;; ret 0) s = (size_taken v, s')
    /\ quiet s s'.
Proof.
  assert (Hraise : forall e,
            exists s',
              (if is_TypeError_or_ValueError e
               then (logger_warning msg ;;; ret 0) s
               else raise e s)
              = (if is_TypeError_or_ValueError e then Ret 0 else Raise e, s')
              /\ quiet s s').
  { intros e. destruct (is_TypeError_or_ValueError e).
    - eexists. split; [reflexivity|]. apply (quiet_log (LogWarning msg)). reflexivity.
    - eexists. split; [reflexivity|]. apply quiet_refl. }
  destruct v as [|z|[q r|neg|]|t [z|e]];
    unfold try_except_when, try_except, size_taken, lift; simpl;
    try (eexists; split; [reflexivity|apply quiet_refl]).
  - eexists. split; [reflexivity|]. apply (quiet_log (LogWarning msg)). reflexivity.
  - destruct (Hraise e) as (s' & Hs & Hq). exists s'. split; [|exact Hq].
    destruct (is_TypeError_or_ValueError e); exact Hs.
Qed.

Ltac size_block_in H v s1 Hq :=
  unfold bind at 1 in H;
  match type of H with
  | context [try_except_when is_TypeError_or_ValueError ?c ?h ?s] =>
      let Hb := fresh "Hb" in
      assert (Hb : exists s',
                 try_except_when is_TypeError_or_ValueError c h s
                 = (size_taken v, s') /\ quiet s s')
        by apply size_block;
      destruct Hb as (s1 & Hb & Hq); rewrite Hb in H; clear Hb
  end.



(** ** Footprints of the functions *)

Lemma check_docx_metadata_quiet docx_path source_path links s :
  exists s', _check_docx_metadata docx_path source_path links s = (Ret tt, s')
             /\ quiet s s'.
Proof.
  unfold _check_docx_metadata, try_except, bind, get, lift, logger_debug.
  destruct (import_docx (st_env s)) as [ctor|e].
  - destruct (ctor docx_path) as [doc|e].
    + destruct (negb _ && links).
      * eexists; split; [reflexivity|]. apply (quiet_log (LogDebug _)). reflexivity.
      * eexists; split; [reflexivity|]. apply quiet_refl.
    + eexists; split; [reflexivity|]. apply (quiet_log (LogDebug _)). reflexivity.
  - destruct (is_ImportError e).
    + eexists; split; [reflexivity|]. apply (quiet_log (LogDebug _)). reflexivity.
    + eexists; split; [reflexivity|]. apply (quiet_log (LogDebug _)). reflexivity.
Qed.

Lemma validate_conversion_spec output_path input_path original_size config s :
  exists s',
    validate_conversion output_path input_path original_size config s
    = (validation_outcome output_path original_size config (st_env s), s')
    /\ quiet s s'.
Proof.
  unfold validate_conversion, validation_outcome, check_messages.
  unfold bind at 1. unfold get at 1.
  destruct (negb (fi_success _) || negb (fi_exists _)).
  - eexists; split; [reflexivity|]. apply quiet_refl.
  - destruct (size_block (fi_size (get_file_info (st_env s) output_path))
                ("Could not convert output size to integer: "
                 +:+ str (fi_size (get_file_info (st_env s) output_path))
                 +:+ ", using default") s) as (s1 & Hb & Hq).
    unfold bind at 1. rewrite Hb.
    destruct (size_taken _) as [output_size|e]; [|exists s1; split; [reflexivity|exact Hq]].
    destruct (check_file_size _ _) as [valid_size size_errors].
    destruct (check_conversion_ratio _ _ _) as [valid_ratio ratio_errors].
    unfold bind at 1. unfold get at 1.
    destruct Hq as (E1 & Hq'). pose proof (conj E1 Hq') as Hq. rewrite E1.
    destruct (verify_structure (validation config) && path_exists (st_env s) output_path).
    + destruct (validate_docx_structure _ _ _) as [is_valid structure_errors].
      destruct (check_docx_metadata_quiet output_path input_path
                  (check_links (validation config)) s1) as (s2 & Hc & Hq2).
      unfold bind. rewrite Hc. unfold ret. simpl.
      exists s2. split; [|eapply quiet_trans; eauto].
      destruct valid_size, valid_ratio, is_valid; simpl;
        rewrite ?app_nil_r, <- ?app_assoc; reflexivity.
    + unfold ret. exists s1. split; [|assumption].
      destruct valid_size, valid_ratio; simpl; rewrite ?app_nil_r; reflexivity.
Qed.

Lemma validate_markdown_input_quiet markdown_path s o s' :
  _validate_markdown_input markdown_path s = (o, s') -> quiet s s'.
Proof.
  unfold _validate_markdown_input. unfold bind at 1. unfold get at 1.
  destruct (negb _ || negb _).
  - unfold raise. intros H; inversion H; subst. apply quiet_refl.
  - intros H.
    size_block_in H (fi_size (get_file_info (st_env s) markdown_path)) s1 Hq.
    destruct (size_taken _) as [n|e0]; [|inversion H; subst; exact Hq].
    unfold bind, try_except, get, lift, raise, ret in H.
    destruct (read_text (st_env s1) markdown_path) as [rr|e].
    + destruct (negb (rr_success rr)); simpl in H.
      * inversion H; subst; assumption.
      * destruct (rr_content rr) as [content|]; simpl in H.
        -- destruct (negb (text_truthy _)); simpl in H; inversion H; subst; assumption.
        -- inversion H; subst; assumption.
    + destruct (is_QuackIntegrationError e); inversion H; subst; assumption.
Qed.

(** A file that the file service does not report as existing is rejected
    before anything else happens. *)
Lemma missing_input_raises markdown_path s :
  fi_success (get_file_info (st_env s) markdown_path)
  && fi_exists (get_file_info (st_env s) markdown_path) = false ->
  _validate_markdown_input markdown_path s
  = (Raise (QuackIntegrationError_
              ("Input file not found: " +:+ markdown_path)
              [("path", markdown_path); ("format", "markdown")]), s).
Proof.
  intros Hmissing. unfold _validate_markdown_input. unfold bind at 1. unfold get at 1.
  destruct (fi_success _); destruct (fi_exists _); simpl in *;
    try discriminate; reflexivity.
Qed.

(** What [_validate_markdown_input] does with a file that the file service
    reports as existing: the size block first, then the read. *)
Lemma validate_markdown_input_cases markdown_path s :
  fi_success (get_file_info (st_env s) markdown_path) = true ->
  fi_exists (get_file_info (st_env s) markdown_path) = true ->
  exists s1,
    quiet s s1
    /\ _validate_markdown_input markdown_path s
       = (match size_taken (fi_size (get_file_info (st_env s) markdown_path)) with
          | Raise e => Raise e
          | Ret n =>
              match read_text (st_env s) markdown_path with
              | Raise e =>
                  Raise (if is_QuackIntegrationError e then e
                         else QuackIntegrationError_
                                ("Could not read Markdown file: " +:+ exn_msg e)
                                [("path", markdown_path)])
              | Ret read_result =>
                  if rr_success read_result
                  then match rr_content read_result with
                       | None =>
                           Raise (QuackIntegrationError_
                                    ("Could not read Markdown file: "
                                     +:+ "'NoneType' object has no attribute 'strip'")
                                    [("path", markdown_path)])
                       | Some markdown_content =>
                           if text_truthy (strip markdown_content)
                           then Ret n
                           else Raise (QuackIntegrationError_
                                         ("Markdown file is empty: " +:+ markdown_path)
                                         [("path", markdown_path)])
                       end
                  else Raise (QuackIntegrationError_
                                ("Could not read Markdown file: " +:+ rr_error read_result)
                                [("path", markdown_path)])
              end
          end, s1).
Proof.
  intros Hok Hex.
  destruct (_validate_markdown_input markdown_path s) as [o s'] eqn:Hrun.
  pose proof (validate_markdown_input_quiet _ _ _ _ Hrun) as Hq.
  exists s'. split; [exact Hq|].
  revert Hrun. unfold _validate_markdown_input. unfold bind at 1. unfold get at 1.
  rewrite Hok, Hex. simpl. intros H.
  size_block_in H (fi_size (get_file_info (st_env s) markdown_path)) s1 Hq1.
  destruct Hq1 as (E1 & _).
  destruct (size_taken _) as [n|e0]; [|inversion H; reflexivity].
  unfold bind, try_except, get, lift, raise, ret in H. rewrite E1 in H.
  destruct (read_text (st_env s) markdown_path) as [rr|e].
  - destruct (rr_success rr); simpl in H.
    + destruct (rr_content rr) as [content|]; simpl in H.
      * destruct (text_truthy _); simpl in H; inversion H; reflexivity.
      * inversion H; reflexivity.
    + inversion H; reflexivity.
  - destruct (is_QuackIntegrationError e); inversion H; reflexivity.
Qed.

Lemma get_conversion_output_spec output_path start_time s o s' :
  _get_conversion_output output_path start_time s = (o, s') -> quiet s s'.
Proof.
  unfold _get_conversion_output. unfold bind at 1. unfold time_time at 1.
  unfold bind at 1. unfold get at 1.
  destruct (negb _).
  - unfold raise. intros H; inversion H; subst. apply quiet_refl.
  - intros H.
    size_block_in H (fi_size (get_file_info (st_env s) output_path)) s1 Hq.
    destruct (size_taken _) as [n|e]; unfold ret in H; inversion H; subst; exact Hq.
Qed.

Lemma convert_once_spec markdown_path output_path config s o s' :
  _convert_markdown_to_docx_once markdown_path output_path config s = (o, s') ->
  st_pypandoc s' = st_pypandoc s /\ st_metrics s' = st_metrics s /\
  st_retry_count s' = st_retry_count s /\
  attempts_made s' = S (attempts_made s) /\ sleeps s' = sleeps s /\
  (engine_calls s' = engine_calls s \/ engine_calls s' = S (engine_calls s)) /\
  match o with Ret _ => True | Raise e => is_QuackIntegrationError e = true end.
Proof.
  unfold _convert_markdown_to_docx_once, pypandoc_convert_file, try_except,
    bind, emit, get, raise, logger_debug, set_env, lift; simpl.
  destruct (negb (op_success _)); simpl.
  - intros H; inversion H; subst; simpl. repeat split; auto.
  - destruct (st_pypandoc s) as [convert_file|] eqn:Hp; simpl.
    + destruct (convert_file _ _ _ _ _) as [[[]|e] env'] eqn:Hc; simpl;
        intros H; inversion H; subst; simpl; repeat split; auto.
    + intros H; inversion H; subst; simpl. repeat split; auto.
Qed.

Lemma track_metrics_spec filename start_time original_size converted_size config s :
  exists s',
    track_metrics filename start_time original_size converted_size config s = (Ret tt, s')
    /\ st_env s' = st_env s /\ st_pypandoc s' = st_pypandoc s
    /\ st_trace s' = st_trace s /\ st_retry_count s' = st_retry_count s
    /\ successful_conversions (st_metrics s') = successful_conversions (st_metrics s)
    /\ failed_conversions (st_metrics s') = failed_conversions (st_metrics s)
    /\ errors (st_metrics s') = errors (st_metrics s)
    /\ exists smp, samples (st_metrics s') = <[filename := smp]> (samples (st_metrics s)).
Proof.
  unfold track_metrics, bind, time_time, get, set_metrics; simpl.
  eexists. split; [reflexivity|]. simpl. repeat split; eauto.
Qed.

(** [time.sleep] returns exactly for the delays it accepts; either way the
    sleep is the one event it adds. *)
Lemma time_sleep_cases delay s :
  (sleep_accepts delay
   /\ time_sleep delay s
      = (Ret tt, mkState (advance_clock delay (st_env s)) (st_pypandoc s)
                   (Sleep delay :: st_trace s) (st_metrics s) (st_retry_count s)))
  \/ (~ sleep_accepts delay
      /\ exists e,
           time_sleep delay s
           = (Raise e, mkState (st_env s) (st_pypandoc s)
                         (Sleep delay :: st_trace s) (st_metrics s) (st_retry_count s))).
Proof.
  unfold time_sleep, sleep_accepts, bind, emit, raise, get, set_env; simpl.
  destruct (Z.ltb_spec delay (- sleep_limit)) as [H1|H1]; simpl.
  - right. split; [unfold sleep_limit in *; lia|]. eauto.
  - destruct (Z.leb_spec sleep_limit delay) as [H2|H2]; simpl.
    + right. split; [lia|]. eauto.
    + destruct (Z.ltb_spec delay 0) as [H3|H3]; simpl.
      * right. split; [lia|]. eauto.
      * left. split; [lia|reflexivity].
Qed.

Section OnePass.

Variables (markdown_path output_path : Path) (config : PandocConfig).
Variables (filename : string) (original_size max_retries : Z).

Let delay := conversion_retry_delay (retry_mechanism config).

Ltac sleep_cases Ha Hn :=
  match goal with
  | |- context [time_sleep ?d ?st] =>
      let Hs := fresh "Hs" in
      let e0 := fresh "e0" in
      destruct (time_sleep_cases d st) as [[Ha Hs]|[Hn (e0 & Hs)]]; rewrite Hs
  end.

(** The inner handler: a terminal failure, a sleep and another pass, or the
    exception of a sleep that [time.sleep] does not accept. *)
Lemma attempt_handler_spec e s o s' :
  attempt_handler markdown_path config max_retries e s = (o, s') ->
  st_pypandoc s' = st_pypandoc s /\ attempts_made s' = attempts_made s /\
  engine_calls s' = engine_calls s /\ st_retry_count s' = st_retry_count s + 1 /\
  match o with
  | Ret (Returned r) =>
      r = error_result ((if is_QuackIntegrationError e
                         then "Integration error: "
                         else "Failed to convert Markdown to DOCX: ") +:+ exn_msg e)
      /\ records_failure markdown_path (exn_msg e) (st_metrics s) (st_metrics s')
      /\ sleeps s' = sleeps s /\ max_retries <= st_retry_count s'
  | Ret Continue =>
      st_metrics s' = st_metrics s /\ st_retry_count s' < max_retries
      /\ sleeps s' = S (sleeps s) /\ sleep_accepts delay
  | Raise _ =>
      st_metrics s' = st_metrics s /\ st_retry_count s' < max_retries
      /\ sleeps s' = S (sleeps s) /\ ~ sleep_accepts delay
  end.
Proof.
  unfold attempt_handler, incr_retry_count, incr_failed_conversions, set_error,
    logger_warning, bind, get, set_retry_count, set_metrics, emit, ret; simpl.
  rewrite Z.geb_leb.
  destruct (Z.leb_spec max_retries (st_retry_count s + 1)) as [Hle|Hlt]; simpl.
  - intros H; inversion H; subst; simpl.
    destruct (is_QuackIntegrationError e); repeat split; auto.
  - fold delay. sleep_cases Ha Hn; simpl;
      intros H; inversion H; subst; simpl;
      (split; [reflexivity|]); (split; [reflexivity|]); (split; [reflexivity|]);
      (split; [reflexivity|]); (split; [reflexivity|]); (split; [lia|]);
      (split; [reflexivity|assumption]).
Qed.

(** The body of the [try]: what each way of leaving it has done. *)
Lemma attempt_body_spec start_time s o s' :
  attempt_body markdown_path output_path config filename
    original_size max_retries start_time s = (o, s') ->
  st_pypandoc s' = st_pypandoc s /\ attempts_made s' = S (attempts_made s) /\
  (engine_calls s' = engine_calls s \/ engine_calls s' = S (engine_calls s)) /\
  match o with
  | Ret (Returned (success_result _ _)) =>
      records_success filename (st_metrics s) (st_metrics s')
      /\ sleeps s' = sleeps s /\ st_retry_count s' = st_retry_count s
  | Ret (Returned (error_result _)) =>
      (exists msg, records_failure markdown_path msg (st_metrics s) (st_metrics s'))
      /\ sleeps s' = sleeps s /\ st_retry_count s' = st_retry_count s + 1
      /\ max_retries <= st_retry_count s'
  | Ret Continue =>
      st_metrics s' = st_metrics s /\ st_retry_count s' = st_retry_count s + 1
      /\ st_retry_count s' < max_retries /\ sleeps s' = S (sleeps s)
      /\ sleep_accepts delay
  | Raise _ =>
      st_metrics s' = st_metrics s /\
      ((st_retry_count s' = st_retry_count s /\ sleeps s' = sleeps s) \/
       (st_retry_count s' = st_retry_count s + 1 /\ st_retry_count s' < max_retries
        /\ sleeps s' = S (sleeps s) /\ ~ sleep_accepts delay))
  end.
Proof.
  unfold attempt_body. intros H.
  apply bind_inv in H as [(u & s1 & H1 & H)|(e & H1 & ->)].
  2:{ apply convert_once_spec in H1 as (P1 & M1 & R1 & A1 & S1 & E1 & _).
      repeat split; auto. }
  apply convert_once_spec in H1 as (P1 & M1 & R1 & A1 & S1 & E1 & _).
  apply bind_inv in H as [(out & s2 & H2 & H)|(e & H2 & ->)].
  2:{ apply get_conversion_output_spec in H2 as Hq2.
      destruct (quiet_counts _ _ Hq2) as (A2 & E2 & S2).
      destruct Hq2 as (_ & P2 & M2 & R2 & _).
      split; [congruence|]. split; [congruence|].
      split; [destruct E1; [left|right]; congruence|].
      split; [congruence|]. left. split; congruence. }
  apply get_conversion_output_spec in H2 as Hq2.
  destruct out as [conversion_time output_size].
  destruct (validate_conversion_spec output_path markdown_path original_size config s2)
    as (s3 & Hv & Hq3).
  pose proof (quiet_trans _ _ _ Hq2 Hq3) as Hq.
  destruct (quiet_counts _ _ Hq) as (A3 & E3 & S3).
  destruct Hq as (_ & P3 & M3 & R3 & _).
  unfold bind at 1 in H. rewrite Hv in H.
  assert (HA : attempts_made s3 = S (attempts_made s)) by congruence.
  assert (HE : engine_calls s3 = engine_calls s \/ engine_calls s3 = S (engine_calls s))
    by (destruct E1; [left|right]; congruence).
  assert (HS : sleeps s3 = sleeps s) by congruence.
  assert (HP : st_pypandoc s3 = st_pypandoc s) by congruence.
  assert (HM : st_metrics s3 = st_metrics s) by congruence.
  assert (HR : st_retry_count s3 = st_retry_count s) by congruence.
  clear A1 E1 S1 P1 M1 R1 A3 E3 S3 P3 M3 R3 Hq2 Hq3 Hv.
  destruct (validation_outcome _ _ _ _) as [[|first_error more_errors]|e].
  - destruct (track_metrics_spec filename start_time original_size output_size config s3)
      as (s4 & Ht & E4 & P4 & T4 & R4 & Su4 & F4 & Er4 & Sm4).
    unfold bind at 1 in H. rewrite Ht in H.
    unfold incr_successful_conversions, bind, get, set_metrics, ret in H; simpl in H.
    inversion H; subst; clear H. unfold attempts_made, engine_calls, sleeps in *.
    simpl. rewrite T4. unfold records_success. simpl.
    rewrite Su4, F4, Er4, HM. repeat split; auto; try congruence.
    rewrite <- HM. exact Sm4.
  - revert H.
    unfold incr_retry_count, incr_failed_conversions, set_error,
      logger_warning, logger_error, bind, get, set_retry_count, set_metrics,
      emit, ret; simpl.
    rewrite Z.geb_leb.
    destruct (Z.leb_spec max_retries (st_retry_count s3 + 1)) as [Hle|Hlt]; simpl.
    + intros H; inversion H; subst; clear H. unfold attempts_made, engine_calls, sleeps in *.
      simpl. unfold records_failure. simpl. rewrite HM, HR in *.
      repeat split; auto. eexists. repeat split; reflexivity.
    + fold delay. sleep_cases Ha Hn; simpl;
        intros H; inversion H; subst; clear H;
        unfold attempts_made, engine_calls, sleeps in *; simpl;
        rewrite ?count_events_cons; simpl;
        rewrite ?HR in *;
        (split; [assumption|]); (split; [assumption|]); (split; [assumption|]);
        (split; [assumption|]).
      * split; [reflexivity|]. split; [lia|]. split; [congruence|assumption].
      * right. split; [reflexivity|]. split; [lia|]. split; [congruence|assumption].
  - inversion H; subst; clear H.
    split; [exact HP|]. split; [exact HA|]. split; [exact HE|].
    split; [exact HM|]. left. split; [exact HR|exact HS].
Qed.

(** One pass of the loop body, handler included. *)
Lemma one_pass_spec start_time s o s' :
  try_except
    (attempt_body markdown_path output_path config filename
       original_size max_retries start_time)
    (attempt_handler markdown_path config max_retries) s = (o, s') ->
  st_pypandoc s' = st_pypandoc s /\ attempts_made s' = S (attempts_made s) /\
  (engine_calls s' = engine_calls s \/ engine_calls s' = S (engine_calls s)) /\
  match o with
  | Ret (Returned (success_result _ _)) =>
      records_success filename (st_metrics s) (st_metrics s') /\ sleeps s' = sleeps s
  | Ret (Returned (error_result _)) =>
      (exists msg, records_failure markdown_path msg (st_metrics s) (st_metrics s'))
      /\ (sleep_accepts delay -> sleeps s' = sleeps s)
  | Ret Continue =>
      st_metrics s' = st_metrics s /\ st_retry_count s' = st_retry_count s + 1
      /\ st_retry_count s' < max_retries /\ sleeps s' = S (sleeps s)
      /\ sleep_accepts delay
  | Raise _ =>
      st_metrics s' = st_metrics s /\ ~ sleep_accepts delay
  end.
Proof.
  intros H. apply try_except_inv in H as [(a & Hb & ->)|(e & s1 & Hb & Hh)].
  - apply attempt_body_spec in Hb as (P & A & E & Hpost).
    repeat split; auto.
    destruct a as [[c m|msg]|]; intuition auto.
  - apply attempt_body_spec in Hb as (P1 & A1 & E1 & M1 & Hcase).
    apply attempt_handler_spec in Hh as (P2 & A2 & E2 & R2 & Hpost).
    split; [congruence|]. split; [congruence|].
    split; [destruct E1; [left|right]; congruence|].
    destruct o as [[r|]|e'].
    + destruct Hpost as (-> & (Su & Fa & Er & Sm) & S2 & Hmax).
      split.
      * exists (exn_msg e). unfold records_failure. rewrite <- M1. auto.
      * intros Hd. destruct Hcase as [[_ S1]|(_ & _ & _ & Hneg)];
          [congruence|fold delay in Hneg; contradiction].
    + destruct Hpost as (M2 & Hlt & S2 & Hd).
      destruct Hcase as [[R1 S1]|(_ & _ & _ & Hneg)];
        [|fold delay in Hneg; contradiction].
      split; [congruence|]. split; [congruence|]. split; [assumption|].
      split; [congruence|assumption].
    + destruct Hpost as (M2 & _ & _ & Hd). split; [congruence|assumption].
Qed.

Lemma loop_post_exit s :
  max_retries <= st_retry_count s ->
  loop_post markdown_path config filename max_retries s
    (Ret (error_result "Conversion failed after maximum retries")) s.
Proof.
  intros Hge. exists O.
  split; [reflexivity|]. split; [lia|]. split; [lia|]. split; [lia|].
  right. auto.
Qed.

Lemma retry_loop_unfold fuel s :
  retry_loop fuel markdown_path output_path config filename original_size max_retries s
  = if st_retry_count s <? max_retries
    then
      match fuel with
      | O => None
      | S fuel' =>
          match try_except
                  (attempt_body markdown_path output_path config filename
                     original_size max_retries (env_now (st_env s)))
                  (attempt_handler markdown_path config max_retries) s with
          | (Ret (Returned r), s') => Some (Ret r, s')
          | (Ret Continue, s') =>
              retry_loop fuel' markdown_path output_path config filename
                original_size max_retries s'
          | (Raise e, s') => Some (Raise e, s')
          end
      end
    else Some (Ret (error_result "Conversion failed after maximum retries"), s).
Proof. destruct fuel; reflexivity. Qed.

(** The loop ends within [max_retries - retry_count] passes. *)
Lemma retry_loop_total fuel s :
  (Z.to_nat (max_retries - st_retry_count s) <= fuel)%nat ->
  exists o s',
    retry_loop fuel markdown_path output_path config filename
      original_size max_retries s = Some (o, s')
    /\ loop_post markdown_path config filename max_retries s o s'.
Proof.
  revert s. induction fuel as [|fuel IH]; intros s Hfuel; rewrite retry_loop_unfold.
  - destruct (Z.ltb_spec (st_retry_count s) max_retries) as [Hlt|Hge]; [lia|].
    eexists _, _. split; [reflexivity|]. apply loop_post_exit. assumption.
  - destruct (Z.ltb_spec (st_retry_count s) max_retries) as [Hlt|Hge].
    2:{ eexists _, _. split; [reflexivity|]. apply loop_post_exit. assumption. }
    destruct (try_except _ _ s) as [[[r|]|e] s1] eqn:Hp;
      apply one_pass_spec in Hp as (P & A & E & Hpost).
    + eexists _, _. split; [reflexivity|]. exists 1%nat.
      split; [assumption|]. split; [lia|]. split; [lia|]. split; [lia|].
      destruct r as [c m|msg].
      * destruct Hpost as [Hrec Hs].
        split; [assumption|]. split; [lia|]. intros _. lia.
      * destruct Hpost as [Hrec Hs]. left.
        split; [assumption|]. split; [assumption|]. split; [lia|].
        intros Hd. specialize (Hs Hd). lia.
    + destruct Hpost as (M1 & R1 & Hlt1 & S1 & Hd).
      destruct (IH s1) as (o & s' & Hloop & k & P' & A' & E' & K' & Hpost'); [lia|].
      exists o, s'. split; [assumption|]. exists (S k).
      split; [congruence|]. split; [lia|]. split; [lia|]. split; [lia|].
      destruct o as [[c m|msg]|e'].
      * destruct Hpost' as (Hrec & Hk & Hs). rewrite M1 in Hrec.
        split; [assumption|]. split; [lia|]. intros _. specialize (Hs Hd). lia.
      * destruct Hpost' as [(_ & Hrec & Hk & Hs)|(Hge & _)]; [|lia].
        rewrite M1 in Hrec. left.
        split; [assumption|]. split; [assumption|]. split; [lia|].
        intros _. specialize (Hs Hd). lia.
      * destruct Hpost' as (_ & Hneg & _). contradiction.
    + destruct Hpost as [M1 Hneg].
      eexists _, _. split; [reflexivity|]. exists 1%nat.
      split; [assumption|]. split; [lia|]. split; [lia|]. split; [lia|].
      split; [assumption|]. split; [assumption|]. lia.
Qed.

(** More fuel than the loop needs changes nothing. *)
Lemma retry_loop_fuel_irrelevant fuel fuel' s r :
  retry_loop fuel markdown_path output_path config filename
    original_size max_retries s = Some r ->
  (fuel <= fuel')%nat ->
  retry_loop fuel' markdown_path output_path config filename
    original_size max_retries s = Some r.
Proof.
  revert fuel' s. induction fuel as [|fuel IH]; intros fuel' s;
    rewrite !retry_loop_unfold;
    destruct (st_retry_count s <? max_retries); intros Hrun Hle;
    try discriminate; try assumption.
  destruct fuel' as [|fuel']; [lia|].
  destruct (try_except _ _ s) as [[[r0|]|e] s1]; try assumption.
  apply IH; [exact Hrun|lia].
Qed.

End OnePass.

(** ** The whole call *)

Lemma boundary_handler_spec markdown_path e s :
  exists s',
    boundary_handler markdown_path e s
    = (Ret (error_result ("Failed to convert Markdown to DOCX: " +:+ exn_msg e)), s')
    /\ records_failure markdown_path (exn_msg e) (st_metrics s) (st_metrics s')
    /\ st_trace s' = st_trace s /\ st_pypandoc s' = st_pypandoc s.
Proof.
  unfold boundary_handler, incr_failed_conversions, set_error, bind, get,
    set_metrics, ret; simpl.
  eexists. split; [reflexivity|]. unfold records_failure. simpl. auto.
Qed.

(** Every call returns a result, and it got there in one of two ways: input
    validation raised and the boundary handler recorded it, or the loop ran
    [k] passes. *)
Lemma convert_cases markdown_path output_path config metrics w :
  let m := metrics_or_fresh metrics in
  let s0 := enter w m in
  let N := max_conversion_retries (retry_mechanism config) in
  let delay := conversion_retry_delay (retry_mechanism config) in
  exists r s',
    convert_markdown_to_docx markdown_path output_path config metrics w
    = Some (Ret r, s')
    /\ ((exists e s1,
           _validate_markdown_input markdown_path s0 = (Raise e, s1)
           /\ r = error_result ("Failed to convert Markdown to DOCX: " +:+ exn_msg e)
           /\ records_failure markdown_path (exn_msg e) m (st_metrics s')
           /\ attempts_made s' = attempts_made s0
           /\ engine_calls s' = engine_calls s0
           /\ sleeps s' = sleeps s0)
        \/
        (exists original_size s1 (k : nat),
           _validate_markdown_input markdown_path s0 = (Ret original_size, s1)
           /\ attempts_made s' = (attempts_made s0 + k)%nat
           /\ (engine_calls s0 <= engine_calls s' <= engine_calls s0 + k)%nat
           /\ Z.of_nat k <= Z.max 0 N
           /\ match r with
              | success_result _ _ =>
                  records_success (path_name markdown_path) m (st_metrics s')
                  /\ (1 <= k)%nat
                  /\ (sleep_accepts delay -> (sleeps s' + 1 = sleeps s0 + k)%nat)
              | error_result msg =>
                  (0 < N
                   /\ (exists msg', records_failure markdown_path msg' m (st_metrics s'))
                   /\ (1 <= k)%nat
                   /\ (sleep_accepts delay -> (sleeps s' + 1 = sleeps s0 + k)%nat))
                  \/ (N <= 0 /\ k = O
                      /\ msg = "Conversion failed after maximum retries"
                      /\ st_metrics s' = m /\ sleeps s' = sleeps s0)
              end)).
Proof.
  intros m s0 N delay.
  unfold convert_markdown_to_docx, convert_markdown_to_docx_fuel.
  fold (metrics_or_fresh metrics). fold m. fold s0. fold N.
  destruct (_validate_markdown_input markdown_path s0) as [[original_size|e] s1] eqn:Hv;
    pose proof (validate_markdown_input_quiet _ _ _ _ Hv) as Hq;
    destruct (quiet_counts _ _ Hq) as (A1 & E1 & S1);
    destruct Hq as (_ & P1 & M1 & _ & _).
  - unfold set_retry_count.
    set (s2 := mkState (st_env s1) (st_pypandoc s1) (st_trace s1) (st_metrics s1) 0).
    destruct (retry_loop_total markdown_path output_path config
                (path_name markdown_path) original_size N (Z.to_nat N) s2)
      as (o & s3 & Hloop & k & P3 & A3 & E3 & K3 & Hpost);
      [simpl; lia|].
    rewrite Hloop.
    assert (A2 : attempts_made s2 = attempts_made s0) by exact A1.
    assert (E2 : engine_calls s2 = engine_calls s0) by exact E1.
    assert (S2 : sleeps s2 = sleeps s0) by exact S1.
    assert (M2 : st_metrics s2 = m) by exact M1.
    assert (R2 : st_retry_count s2 = 0) by reflexivity.
    rewrite A2 in A3. rewrite E2 in E3. rewrite R2, Z.sub_0_r in K3.
    rewrite M2, S2, R2 in Hpost. clearbody s2.
    destruct o as [r|e].
    + exists r, s3. split; [reflexivity|]. right.
      exists original_size, s1, k.
      split; [reflexivity|]. split; [assumption|]. split; [assumption|].
      split; [assumption|].
      destruct r as [c msg|msg]; [exact Hpost|].
      destruct Hpost as [Hfail|(Hge & -> & -> & ->)]; [left; exact Hfail|].
      right. auto.
    + destruct Hpost as (M3 & Hneg & Hk).
      destruct (boundary_handler_spec markdown_path e s3) as (s4 & Hb & Hrec & T4 & P4).
      rewrite Hb. eexists _, s4. split; [reflexivity|]. right.
      exists original_size, s1, k.
      assert (C4 : forall p, count_events p (st_trace s4) = count_events p (st_trace s3))
        by (intros; rewrite T4; reflexivity).
      split; [reflexivity|].
      split; [unfold attempts_made in *; rewrite C4; assumption|].
      split; [unfold engine_calls in *; rewrite C4; assumption|].
      split; [assumption|]. left.
      split; [lia|]. split; [|split; [assumption|intros Hd; contradiction]].
      exists (exn_msg e). rewrite M3 in Hrec. exact Hrec.
  - destruct (boundary_handler_spec markdown_path e s1) as (s4 & Hb & Hrec & T4 & P4).
    rewrite Hb. eexists _, s4. split; [reflexivity|]. left.
    exists e, s1.
    assert (C4 : forall p, count_events p (st_trace s4) = count_events p (st_trace s1))
      by (intros; rewrite T4; reflexivity).
    split; [reflexivity|]. split; [reflexivity|].
    split; [rewrite M1 in Hrec; exact Hrec|].
    unfold attempts_made, engine_calls, sleeps in *. rewrite !C4. auto.
Qed.

(** The fuel [convert_markdown_to_docx] passes on is enough: more gives the
    same run. *)
Lemma convert_fuel_irrelevant fuel markdown_path output_path config metrics w :
  (Z.to_nat (max_conversion_retries (retry_mechanism config)) <= fuel)%nat ->
  convert_markdown_to_docx_fuel fuel markdown_path output_path config metrics w
  = convert_markdown_to_docx markdown_path output_path config metrics w.
Proof.
  intros Hle. unfold convert_markdown_to_docx, convert_markdown_to_docx_fuel.
  destruct (_validate_markdown_input _ _) as [[original_size|e] s1]; [|reflexivity].
  unfold set_retry_count.
  destruct (retry_loop_total markdown_path output_path config
              (path_name markdown_path) original_size
              (max_conversion_retries (retry_mechanism config))
              (Z.to_nat (max_conversion_retries (retry_mechanism config)))
              (mkState (st_env s1) (st_pypandoc s1) (st_trace s1) (st_metrics s1) 0))
    as (o & s3 & Hloop & _); [simpl; lia|].
  rewrite Hloop.
  rewrite (retry_loop_fuel_irrelevant _ _ _ _ _ _ _ _ _ _ Hloop Hle).
  reflexivity.
Qed.

(** ** Properties of [convert_markdown_to_docx] *)

Section Orchestrator.

Variables (markdown_path output_path : Path) (config : PandocConfig).
Variables (metrics : option ConversionMetrics) (w : World).

Let m0 := metrics_or_fresh metrics.
Let s0 := enter w m0.
Let N := max_conversion_retries (retry_mechanism config).
Let delay := conversion_retry_delay (retry_mechanism config).

(** C1. With [max_conversion_retries >= 1] every call returns, and by then
    exactly one of the two counters has grown, by exactly one: on success
    [successful_conversions], with the error map as it was; on failure
    [failed_conversions], with exactly the entry of the source path written
    into the error map. *)
Theorem one_counter_per_call :
  1 <= N ->
  exists r s',
    convert_markdown_to_docx markdown_path output_path config metrics w
    = Some (Ret r, s')
    /\ match r with
       | success_result _ _ =>
           successful_conversions (st_metrics s') = successful_conversions m0 + 1
           /\ failed_conversions (st_metrics s') = failed_conversions m0
           /\ errors (st_metrics s') = errors m0
       | error_result _ =>
           successful_conversions (st_metrics s') = successful_conversions m0
           /\ failed_conversions (st_metrics s') = failed_conversions m0 + 1
           /\ exists msg, errors (st_metrics s') = <[markdown_path := msg]> (errors m0)
       end.
Proof.
  intros HN.
  destruct (convert_cases markdown_path output_path config metrics w)
    as (r & s' & Hrun & Hcase).
  exists r, s'. split; [exact Hrun|].
  destruct Hcase as [(e & s1 & _ & -> & (Su & Fa & Er & _) & _)
                    |(sz & s1 & k & _ & _ & _ & _ & Hpost)].
  - split; [exact Su|]. split; [exact Fa|]. exists (exn_msg e). exact Er.
  - destruct r as [c msg|msg].
    + destruct Hpost as ((Su & Fa & Er & _) & _). auto.
    + destruct Hpost as [(_ & (msg' & Su & Fa & Er & _) & _)|(Hle & _)].
      * split; [exact Su|]. split; [exact Fa|]. exists msg'. exact Er.
      * fold N in Hle. lia.
Qed.


(** C4. A file that the file service does not report as existing makes
    input validation raise, and whenever input validation raises, for a
    missing file or otherwise, the call returns the failure built from that
    exception, no attempt is made, the engine does not run, nothing sleeps,
    and the metrics get the one failure record and nothing else. For the
    missing file the exception is a [QuackIntegrationError] whose message is
    [Input file not found: ] followed by the path, so the failure returned
    and the entry recorded both name the path. *)
Theorem invalid_input_fails_at_once :
  fi_success (get_file_info (w_env w) markdown_path)
  && fi_exists (get_file_info (w_env w) markdown_path) = false
  \/ (exists e s1, _validate_markdown_input markdown_path s0 = (Raise e, s1)) ->
  exists e s1 s',
    _validate_markdown_input markdown_path s0 = (Raise e, s1)
    /\ convert_markdown_to_docx markdown_path output_path config metrics w
       = Some (Ret (error_result ("Failed to convert Markdown to DOCX: " +:+ exn_msg e)), s')
    /\ records_failure markdown_path (exn_msg e) m0 (st_metrics s')
    /\ attempts_made s' = attempts_made s0
    /\ engine_calls s' = engine_calls s0
    /\ sleeps s' = sleeps s0
    /\ (fi_success (get_file_info (w_env w) markdown_path)
        && fi_exists (get_file_info (w_env w) markdown_path) = false
        -> is_QuackIntegrationError e = true
           /\ exn_msg e = "Input file not found: " +:+ markdown_path).
Proof.
  intros Hin.
  assert (Hraise : exists e s1,
             _validate_markdown_input markdown_path s0 = (Raise e, s1)).
  { destruct Hin as [Hmissing|Hraise]; [|exact Hraise].
    eexists _, _. apply missing_input_raises. exact Hmissing. }
  clear Hin. destruct Hraise as (e & s1 & Hv).
  destruct (convert_cases markdown_path output_path config metrics w)
    as (r & s' & Hrun & Hcase).
  fold m0 s0 N delay in Hcase.
  destruct Hcase as [(e' & s1' & Hv' & -> & Hrec & A & E & S)
                    |(sz & s1' & k & Hv' & _)]; [|congruence].
  assert (e' = e) by congruence. subst e'.
  exists e, s1, s'. split; [exact Hv|]. split; [exact Hrun|]. split; [exact Hrec|].
  split; [exact A|]. split; [exact E|]. split; [exact S|].
  intros Hmissing.
  pose proof (missing_input_raises markdown_path s0 Hmissing) as Hm.
  rewrite Hv in Hm. inversion Hm. split; reflexivity.
Qed.

(** C9. With [max_conversion_retries <= 0] and a valid input the loop body
    never runs: the call returns the bare failure message, makes no attempt,
    does not run the engine, and leaves the metrics object as it was, so
    neither counter moves. *)
Theorem no_retries_no_record size s1 :
  N <= 0 ->
  _validate_markdown_input markdown_path s0 = (Ret size, s1) ->
  exists s',
    convert_markdown_to_docx markdown_path output_path config metrics w
    = Some (Ret (error_result "Conversion failed after maximum retries"), s')
    /\ st_metrics s' = m0
    /\ attempts_made s' = attempts_made s0
    /\ engine_calls s' = engine_calls s0
    /\ sleeps s' = sleeps s0.
Proof.
  intros HN Hv.
  destruct (convert_cases markdown_path output_path config metrics w)
    as (r & s' & Hrun & Hcase).
  fold m0 s0 N delay in Hcase.
  destruct Hcase as [(e' & s1' & Hv' & _)|(sz & s1' & k & _ & A & E & K & Hpost)];
    [congruence|].
  destruct r as [c msg|msg].
  - destruct Hpost as (_ & Hk & _). lia.
  - destruct Hpost as [(Hlt & _)|(_ & -> & -> & M & S)]; [lia|].
    exists s'. split; [exact Hrun|]. split; [exact M|].
    split; [lia|]. split; [lia|]. exact S.
Qed.

(** C10. A call that returns success leaves the error map exactly as it
    found it, so an entry an earlier failure left for the same path is still
    there with the same text; of the metrics it changes only
    [successful_conversions], by one, and the sample of this file. *)
Theorem success_keeps_errors content message s' :
  convert_markdown_to_docx markdown_path output_path config metrics w
  = Some (Ret (success_result content message), s') ->
  errors (st_metrics s') = errors m0
  /\ (forall key text, errors m0 !! key = Some text ->
                       errors (st_metrics s') !! key = Some text)
  /\ failed_conversions (st_metrics s') = failed_conversions m0
  /\ successful_conversions (st_metrics s') = successful_conversions m0 + 1
  /\ (forall file, file <> path_name markdown_path ->
                   samples (st_metrics s') !! file = samples m0 !! file).
Proof.
  intros Hrun.
  destruct (convert_cases markdown_path output_path config metrics w)
    as (r & s'' & Hrun' & Hcase).
  fold m0 s0 N delay in Hcase.
  rewrite Hrun in Hrun'. inversion Hrun'; subst r s''; clear Hrun'.
  destruct Hcase as [(e' & s1' & _ & Habs & _)|(sz & s1' & k & _ & _ & _ & _ & Hpost)];
    [discriminate|].
  destruct Hpost as ((Su & Fa & Er & smp & Sm) & _).
  split; [exact Er|]. split; [intros key text; rewrite Er; auto|].
  split; [exact Fa|]. split; [exact Su|].
  intros file Hne. rewrite Sm. apply lookup_insert_ne. congruence.
Qed.

End Orchestrator.

(** ** Exceptions and the boundary *)


(** ** Properties of [validate_conversion] and [_validate_markdown_input] *)


(** The ratio check on an empty artifact: [0 / max(input_size, 1)] is below
    every positive threshold. *)
Lemma check_conversion_ratio_zero original_size threshold :
  (0 < threshold)%Q ->
  fst (check_conversion_ratio 0 original_size threshold) = false
  /\ snd (check_conversion_ratio 0 original_size threshold) <> [].
Proof.
  intros Hpos. unfold check_conversion_ratio.
  destruct (Qlt_le_dec _ _) as [Hlt|Hle]; simpl.
  - split; [reflexivity|discriminate].
  - exfalso. apply (Qlt_not_le _ _ Hpos). eapply Qle_trans; [exact Hle|].
    unfold Qle, Qdiv, Qmult; simpl. lia.
Qed.

(** C6. An output that exists and whose size is taken as [0], an input of
    positive size and a positive ratio threshold: the ratio check fails and
    [validate_conversion] returns a list that is not empty and holds the
    messages of the ratio check, whatever [min_file_size] is. *)
Theorem empty_artifact_is_flagged output_path input_path original_size config s :
  (0 < conversion_ratio_threshold (validation config))%Q ->
  0 < original_size ->
  fi_success (get_file_info (st_env s) output_path) = true ->
  fi_exists (get_file_info (st_env s) output_path) = true ->
  size_taken (fi_size (get_file_info (st_env s) output_path)) = Ret 0 ->
  exists errs s',
    validate_conversion output_path input_path original_size config s = (Ret errs, s')
    /\ errs <> []
    /\ fst (check_conversion_ratio 0 original_size
              (conversion_ratio_threshold (validation config))) = false
    /\ (forall msg,
          In msg (snd (check_conversion_ratio 0 original_size
                         (conversion_ratio_threshold (validation config)))) ->
          In msg errs).
Proof.
  intros Hthr Hpos Hok Hex Hzero.
  destruct (validate_conversion_spec output_path input_path original_size config s)
    as (s' & Hrun & _).
  destruct (check_conversion_ratio_zero original_size _ Hthr) as [Hfail Hne].
  unfold validation_outcome, check_messages in Hrun.
  rewrite Hok, Hex, Hzero in Hrun. simpl in Hrun. rewrite Hfail in Hrun.
  eexists _, s'. split; [exact Hrun|].
  split; [|split; [exact Hfail|]].
  - intros Habs. apply app_eq_nil in Habs as [_ Habs].
    apply app_eq_nil in Habs as [Habs _]. exact (Hne Habs).
  - intros msg Hin. apply in_or_app. right. apply in_or_app. left. exact Hin.
Qed.

(** C7. The list [validate_conversion] returns does not depend on what the
    metadata check sees: whether python-docx can be imported, whether the
    document opens, what its title, comments and subject say. The metadata
    check itself always returns, and changes the state by log lines only. *)
Theorem metadata_is_advisory output_path input_path original_size config s :
  (forall d,
     fst (validate_conversion output_path input_path original_size config (with_docx d s))
     = fst (validate_conversion output_path input_path original_size config s))
  /\ (forall links,
        exists s', _check_docx_metadata output_path input_path links s = (Ret tt, s')
                   /\ quiet s s').
Proof.
  split.
  - intros d.
    destruct (validate_conversion_spec output_path input_path original_size config s)
      as (s1 & -> & _).
    destruct (validate_conversion_spec output_path input_path original_size config
                (with_docx d s)) as (s2 & -> & _).
    reflexivity.
  - intros links. apply check_docx_metadata_quiet.
Qed.


(** ** Further properties of [_validate_markdown_input] *)


(** X2. A file that exists and reads, but holds nothing except white space
    (that of [str.strip], Unicode included), is rejected as empty with its
    path in the message, whatever size the size block has taken for it; only
    log lines are added to the state. *)
Theorem blank_input_is_rejected markdown_path s content text n :
  fi_success (get_file_info (st_env s) markdown_path) = true ->
  fi_exists (get_file_info (st_env s) markdown_path) = true ->
  size_taken (fi_size (get_file_info (st_env s) markdown_path)) = Ret n ->
  read_text (st_env s) markdown_path = Ret content ->
  rr_success content = true ->
  rr_content content = Some text ->
  text_truthy (strip text) = false ->
  exists s',
    _validate_markdown_input markdown_path s
    = (Raise (QuackIntegrationError_ ("Markdown file is empty: " +:+ markdown_path)
                [("path", markdown_path)]), s')
    /\ quiet s s'.
Proof.
  intros Hok Hex Hsize Hread Hsucc Hcontent Hblank.
  destruct (validate_markdown_input_cases markdown_path s Hok Hex)
    as (s1 & Hq & Hrun).
  rewrite Hsize, Hread, Hsucc, Hcontent, Hblank in Hrun.
  exists s1. split; [exact Hrun|exact Hq].
Qed.


(** ** Further properties of [_convert_markdown_to_docx_once] *)

(** X4. When the output directory cannot be created the attempt raises with
    the reported error in the message, and the engine is not run: the
    environment is as before and the only event added is the attempt. *)
Theorem no_directory_no_engine markdown_path output_path config s :
  op_success (create_directory (st_env s) (path_parent output_path)) = false ->
  exists s',
    _convert_markdown_to_docx_once markdown_path output_path config s
    = (Raise (QuackIntegrationError_
                ("Failed to create output directory: "
                 +:+ op_error (create_directory (st_env s) (path_parent output_path)))
                [("path", path_parent output_path); ("operation", "create_directory")]),
       s')
    /\ st_env s' = st_env s
    /\ st_trace s' = Attempt :: st_trace s
    /\ engine_calls s' = engine_calls s.
Proof.
  intros Hdir.
  unfold _convert_markdown_to_docx_once, bind, emit, get, raise; simpl.
  rewrite Hdir. simpl. eexists. split; [reflexivity|]. simpl. auto.
Qed.

(** X5. An attempt that returns has run the engine exactly once, on the
    Markdown path, the output path and the prepared arguments, and the
    engine returned; the environment afterwards is the one the engine
    left. *)
Theorem attempt_returns_after_one_engine_run markdown_path output_path config s s' :
  _convert_markdown_to_docx_once markdown_path output_path config s = (Ret tt, s') ->
  let extra_args :=
    prepare_pandoc_args config "markdown" "docx" (md_to_docx_extra_args config) in
  exists convert_file,
    st_pypandoc s = Some convert_file
    /\ op_success (create_directory (st_env s) (path_parent output_path)) = true
    /\ convert_file (engine_calls s) markdown_path output_path extra_args (st_env s)
       = (Ret tt, st_env s')
    /\ engine_calls s' = S (engine_calls s)
    /\ exists line,
         st_trace s'
         = EngineCall markdown_path output_path extra_args
           :: LogDebug line :: Attempt :: st_trace s.
Proof.
  unfold _convert_markdown_to_docx_once, pypandoc_convert_file, try_except,
    bind, emit, get, raise, logger_debug, set_env, lift; simpl.
  destruct (op_success _) eqn:Hdir; simpl; [|discriminate].
  destruct (st_pypandoc s) as [convert_file|] eqn:Hp; simpl; [|discriminate].
  replace (engine_calls
             (mkState (st_env s) (Some convert_file)
                (LogDebug
                   ("Converting " +:+ markdown_path +:+ " to DOCX with args: "
                    +:+ repr_list
                          (prepare_pandoc_args config "markdown" "docx"
                             (md_to_docx_extra_args config)))
                 :: Attempt :: st_trace s) (st_metrics s) (st_retry_count s)))
    with (engine_calls s) by reflexivity.
  destruct (convert_file _ _ _ _ _) as [[[]|e] env'] eqn:Hc; simpl;
    intros H; inversion H; subst; clear H.
  exists convert_file. simpl.
  split; [reflexivity|]. split; [reflexivity|]. split; [exact Hc|].
  split; [reflexivity|]. eexists. reflexivity.
Qed.


(** ** Further properties of [_get_conversion_output] *)

(** X7. [_get_conversion_output] looks at the success flag of the file
    information only, not at whether the file exists: with the flag set it
    returns the time since [start_time] and the size the size block takes
    ([0] for a size that is [None] or on which [int] raises [TypeError] or
    [ValueError]), or lets through what else [int] raises; without the flag
    it raises and leaves the state alone. *)
Theorem conversion_output_needs_only_success output_path start_time s :
  (fi_success (get_file_info (st_env s) output_path) = true ->
   exists s',
     _get_conversion_output output_path start_time s
     = (match size_taken (fi_size (get_file_info (st_env s) output_path)) with
        | Ret output_size => Ret (env_now (st_env s) - start_time, output_size)
        | Raise e => Raise e
        end, s')
     /\ quiet s s')
  /\ (fi_success (get_file_info (st_env s) output_path) = false ->
      _get_conversion_output output_path start_time s
      = (Raise (QuackIntegrationError_
                  ("Failed to get info for converted file: " +:+ output_path)
                  [("path", output_path); ("format", "docx")]), s)).
Proof.
  split; intros Hok;
    unfold _get_conversion_output; unfold bind at 1; unfold time_time at 1;
    unfold bind at 1; unfold get at 1; rewrite Hok; cbn [negb].
  - destruct (size_block (fi_size (get_file_info (st_env s) output_path))
                ("Could not convert output size to integer: "
                 +:+ str (fi_size (get_file_info (st_env s) output_path))
                 +:+ ", using default") s) as (s1 & Hb & Hq).
    unfold bind at 1. rewrite Hb. unfold ret. exists s1.
    split; [|exact Hq]. destruct (size_taken _); reflexivity.
  - reflexivity.
Qed.

(** ** Further properties of [validate_conversion] and [_check_docx_metadata] *)

(** The size block logs one warning or nothing. *)
Lemma size_block_trace v msg s :
  exists s',
    try_except_when is_TypeError_or_ValueError
      (match v with
       | PyNone => ret 0
       | _ => lift (int v)
       end)
      (fun _ => logger_warning msg ;;; ret 0) s = (size_taken v, s')
    /\ st_env s' = st_env s
    /\ (st_trace s' = st_trace s \/ st_trace s' = LogWarning msg :: st_trace s).
Proof.
  destruct v as [|z|[q r|neg|]|t [z|e]];
    unfold try_except_when, try_except, size_taken, lift; simpl;
    try (eexists; split; [reflexivity|]; simpl; auto).
  destruct (is_TypeError_or_ValueError e);
    eexists; (split; [reflexivity|]); simpl; auto.
Qed.

(** X8. The structure check and the metadata check stand behind one gate:
    with [verify_structure] off, or with [output_path.exists()] false, an
    output that the file service reports as existing and whose size is
    taken as [n] gets the size and ratio messages only, and no debug line is
    logged. *)
Theorem structure_check_is_gated output_path input_path original_size config s n :
  fi_success (get_file_info (st_env s) output_path) = true ->
  fi_exists (get_file_info (st_env s) output_path) = true ->
  size_taken (fi_size (get_file_info (st_env s) output_path)) = Ret n ->
  verify_structure (validation config) && path_exists (st_env s) output_path = false ->
  exists s',
    validate_conversion output_path input_path original_size config s
    = (Ret ((if fst (check_file_size n (min_file_size (validation config)))
             then []
             else snd (check_file_size n (min_file_size (validation config))))
            ++ (if fst (check_conversion_ratio n original_size
                          (conversion_ratio_threshold (validation config)))
                then []
                else snd (check_conversion_ratio n original_size
                            (conversion_ratio_threshold (validation config))))), s')
    /\ count_events is_debug (st_trace s') = count_events is_debug (st_trace s).
Proof.
  intros Hok Hex Hsize Hgate.
  unfold validate_conversion. unfold bind at 1. unfold get at 1.
  rewrite Hok, Hex. cbn [negb orb].
  destruct (size_block_trace (fi_size (get_file_info (st_env s) output_path))
              ("Could not convert output size to integer: "
               +:+ str (fi_size (get_file_info (st_env s) output_path))
               +:+ ", using default") s) as (s1 & Hb & E1 & T1).
  unfold bind at 1. rewrite Hb, Hsize.
  destruct (check_file_size _ _) as [valid_size size_errors].
  destruct (check_conversion_ratio _ _ _) as [valid_ratio ratio_errors].
  unfold bind at 1. unfold get at 1. rewrite E1, Hgate. unfold ret.
  exists s1. split.
  - destruct valid_size, valid_ratio; simpl; rewrite ?app_nil_r; reflexivity.
  - destruct T1 as [->| ->]; [reflexivity|]. rewrite count_events_cons. reflexivity.
Qed.

(** X9. The verdict of the structure check reaches the result through its
    messages only: an output whose size is taken as [n], that passes the
    size and ratio checks and is found structurally invalid without a
    message gets the empty list, as a valid one does. *)
Theorem silent_structure_verdict_passes output_path input_path original_size config s n :
  fi_success (get_file_info (st_env s) output_path) = true ->
  fi_exists (get_file_info (st_env s) output_path) = true ->
  size_taken (fi_size (get_file_info (st_env s) output_path)) = Ret n ->
  fst (check_file_size n (min_file_size (validation config))) = true ->
  fst (check_conversion_ratio n original_size
         (conversion_ratio_threshold (validation config))) = true ->
  validate_docx_structure (st_env s) output_path (check_links (validation config))
  = (false, []) ->
  exists s',
    validate_conversion output_path input_path original_size config s = (Ret [], s').
Proof.
  intros Hok Hex Hn Hsize Hratio Hstruct.
  destruct (validate_conversion_spec output_path input_path original_size config s)
    as (s' & Hrun & _).
  exists s'. rewrite Hrun. unfold validation_outcome, check_messages.
  rewrite Hok, Hex, Hn. simpl. rewrite Hsize, Hratio, Hstruct. simpl.
  destruct (verify_structure _ && path_exists _ _); reflexivity.
Qed.

(** X10. When python-docx imports and the document opens, the metadata
    check logs the missing reference exactly when [check_links] is set and
    none of title, comments and subject is a non-empty text containing the
    name of the source file; otherwise it leaves the state as it is. *)
Theorem metadata_reference_logging docx_path source_path links s ctor doc :
  import_docx (st_env s) = Ret ctor ->
  ctor docx_path = Ret doc ->
  exists s',
    _check_docx_metadata docx_path source_path links s = (Ret tt, s')
    /\ st_env s' = st_env s /\ st_metrics s' = st_metrics s
    /\ st_trace s'
       = if negb (metadata_mentions (path_name source_path) doc) && links
         then LogDebug ("Source file reference missing in document metadata: "
                        +:+ path_name source_path) :: st_trace s
         else st_trace s.
Proof.
  intros Himp Hdoc.
  unfold _check_docx_metadata, try_except, bind, get, lift, logger_debug, emit, ret.
  rewrite Himp, Hdoc.
  assert (Hfound :
            match core_properties doc with
            | Some core_props =>
                if attr_mentions (path_name source_path) (cp_title core_props) then true
                else if attr_mentions (path_name source_path) (cp_comments core_props)
                     then true
                     else if attr_mentions (path_name source_path) (cp_subject core_props)
                          then true else false
            | None => false
            end = metadata_mentions (path_name source_path) doc).
  { unfold metadata_mentions. destruct (core_properties doc) as [cp|]; [|reflexivity].
    destruct (attr_mentions _ (cp_title cp)), (attr_mentions _ (cp_comments cp)),
      (attr_mentions _ (cp_subject cp)); reflexivity. }
  rewrite Hfound.
  destruct (negb (metadata_mentions (path_name source_path) doc) && links);
    eexists; (split; [reflexivity|]); simpl; auto.
Qed.


(** ** Further properties of [convert_markdown_to_docx] *)

Section LoopRule.

Variables (markdown_path output_path : Path) (config : PandocConfig).
Variables (filename : string) (original_size max_retries : Z).

Let delay := conversion_retry_delay (retry_mechanism config).

(** A rule for the loop: what holds when the guard fails, is carried back
    over every pass that goes round again, and holds when a pass returns or
    raises, holds of every run. *)
Lemma retry_loop_rule (Q : State -> outcome IntegrationResult -> State -> Prop) :
  (forall s,
     max_retries <= st_retry_count s ->
     Q s (Ret (error_result "Conversion failed after maximum retries")) s) ->
  (forall s r s',
     st_retry_count s < max_retries ->
     try_except
       (attempt_body markdown_path output_path config filename
          original_size max_retries (env_now (st_env s)))
       (attempt_handler markdown_path config max_retries) s = (Ret (Returned r), s') ->
     Q s (Ret r) s') ->
  (forall s e s',
     st_retry_count s < max_retries ->
     try_except
       (attempt_body markdown_path output_path config filename
          original_size max_retries (env_now (st_env s)))
       (attempt_handler markdown_path config max_retries) s = (Raise e, s') ->
     Q s (Raise e) s') ->
  (forall s s1 o s',
     st_retry_count s < max_retries ->
     try_except
       (attempt_body markdown_path output_path config filename
          original_size max_retries (env_now (st_env s)))
       (attempt_handler markdown_path config max_retries) s = (Ret Continue, s1) ->
     Q s1 o s' -> Q s o s') ->
  forall fuel s o s',
    retry_loop fuel markdown_path output_path config filename
      original_size max_retries s = Some (o, s') ->
    Q s o s'.
Proof.
  intros Hexit Hret Hraise Hcont.
  induction fuel as [|fuel IH]; intros s o s'; rewrite retry_loop_unfold;
    destruct (Z.ltb_spec (st_retry_count s) max_retries) as [Hlt|Hge];
    intros Hrun; try discriminate;
    try (inversion Hrun; subst; apply Hexit; assumption).
  destruct (try_except _ _ s) as [[[r|]|e] s1] eqn:Hp.
  - inversion Hrun; subst. eapply Hret; eassumption.
  - eapply Hcont; [assumption|exact Hp|]. apply IH. exact Hrun.
  - inversion Hrun; subst. eapply Hraise; eassumption.
Qed.



(** Without [pypandoc] an attempt raises before the engine is reached. *)
Lemma convert_once_without_pypandoc s o s' :
  st_pypandoc s = None ->
  _convert_markdown_to_docx_once markdown_path output_path config s = (o, s') ->
  (exists e, o = Raise e) /\ engine_calls s' = engine_calls s.
Proof.
  intros Hn.
  unfold _convert_markdown_to_docx_once, pypandoc_convert_file, try_except,
    bind, emit, get, raise, logger_debug; simpl.
  rewrite Hn. destruct (negb _); intros H; inversion H; subst; split; eauto.
Qed.

Lemma one_pass_without_pypandoc start_time s o s' :
  st_pypandoc s = None ->
  try_except
    (attempt_body markdown_path output_path config filename
       original_size max_retries start_time)
    (attempt_handler markdown_path config max_retries) s = (o, s') ->
  engine_calls s' = engine_calls s
  /\ forall c m, o <> Ret (Returned (success_result c m)).
Proof.
  intros Hn Hp.
  apply try_except_inv in Hp as [(a & Hb & _)|(e & s1 & Hb & Hh)].
  - unfold attempt_body in Hb.
    apply bind_inv in Hb as [(u & s2 & Hc & _)|(e & Hc & Habs)].
    + apply (convert_once_without_pypandoc _ _ _ Hn) in Hc as [[e He] _]. discriminate.
    + apply (convert_once_without_pypandoc _ _ _ Hn) in Hc as [_ E]. discriminate.
  - unfold attempt_body in Hb.
    apply bind_inv in Hb as [(u & s2 & Hc & _)|(e' & Hc & _)].
    + apply (convert_once_without_pypandoc _ _ _ Hn) in Hc as [[e0 He] _]. discriminate.
    + apply (convert_once_without_pypandoc _ _ _ Hn) in Hc as [_ E].
      apply attempt_handler_spec in Hh as (_ & _ & E2 & _ & Hpost).
      split; [congruence|].
      intros c m ->. destruct Hpost as (Habs & _). discriminate.
Qed.

Lemma retry_loop_without_pypandoc fuel s o s' :
  retry_loop fuel markdown_path output_path config filename
    original_size max_retries s = Some (o, s') ->
  st_pypandoc s = None ->
  engine_calls s' = engine_calls s /\ forall c m, o <> Ret (success_result c m).
Proof.
  apply (retry_loop_rule
           (fun s o s' =>
              st_pypandoc s = None ->
              engine_calls s' = engine_calls s
              /\ forall c m, o <> Ret (success_result c m))).
  - intros s0 _ _. split; [reflexivity|discriminate].
  - intros s0 r s1 _ Hp Hn.
    destruct (one_pass_without_pypandoc _ _ _ _ Hn Hp) as [E Hno].
    split; [exact E|]. intros c m Habs. inversion Habs; subst.
    exact (Hno c m eq_refl).
  - intros s0 e s1 _ Hp Hn.
    destruct (one_pass_without_pypandoc _ _ _ _ Hn Hp) as [E _].
    split; [exact E|discriminate].
  - intros s0 s1 o0 s2 _ Hp IH Hn.
    destruct (one_pass_without_pypandoc _ _ _ _ Hn Hp) as [E _].
    apply one_pass_spec in Hp as (P & _).
    destruct IH as [E' Hno]; [congruence|]. split; [congruence|exact Hno].
Qed.

End LoopRule.

(** A call that returns went through the boundary handler after input
    validation raised, or through the loop. *)
Lemma convert_via_loop markdown_path output_path config metrics w r s' :
  convert_markdown_to_docx markdown_path output_path config metrics w
  = Some (Ret r, s') ->
  (exists e s1,
     _validate_markdown_input markdown_path (enter w (metrics_or_fresh metrics))
     = (Raise e, s1)
     /\ boundary_handler markdown_path e s1 = (Ret r, s'))
  \/ (exists size s1,
        _validate_markdown_input markdown_path (enter w (metrics_or_fresh metrics))
        = (Ret size, s1)
        /\ (retry_loop (Z.to_nat (max_conversion_retries (retry_mechanism config)))
              markdown_path output_path config (path_name markdown_path) size
              (max_conversion_retries (retry_mechanism config)) (loop_start s1)
            = Some (Ret r, s')
            \/ exists e s2,
                 retry_loop (Z.to_nat (max_conversion_retries (retry_mechanism config)))
                   markdown_path output_path config (path_name markdown_path) size
                   (max_conversion_retries (retry_mechanism config)) (loop_start s1)
                 = Some (Raise e, s2)
                 /\ boundary_handler markdown_path e s2 = (Ret r, s'))).
Proof.
  unfold convert_markdown_to_docx, convert_markdown_to_docx_fuel.
  fold (metrics_or_fresh metrics).
  destruct (_validate_markdown_input _ _) as [[size|e] s1].
  - unfold set_retry_count, loop_start. simpl.
    destruct (retry_loop _ _ _ _ _ _ _ _) as [[[r0|e] s2]|] eqn:Hloop;
      intros H; [| |discriminate]; right; exists size, s1; (split; [reflexivity|]).
    + left. rewrite Hloop. exact H.
    + right. exists e, s2. split; [exact Hloop|]. inversion H. reflexivity.
  - intros H. left. exists e, s1. split; [reflexivity|]. inversion H. reflexivity.
Qed.

(** The state the loop starts in has the counts and the metrics of the
    state the call entered with. *)
Lemma loop_start_facts markdown_path s0 size s1 :
  _validate_markdown_input markdown_path s0 = (Ret size, s1) ->
  st_pypandoc (loop_start s1) = st_pypandoc s0
  /\ st_metrics (loop_start s1) = st_metrics s0
  /\ st_retry_count (loop_start s1) = 0
  /\ attempts_made (loop_start s1) = attempts_made s0
  /\ engine_calls (loop_start s1) = engine_calls s0
  /\ sleeps (loop_start s1) = sleeps s0
  /\ exists logs, st_trace (loop_start s1) = logs ++ st_trace s0
                  /\ forallb is_log logs = true.
Proof.
  intros Hv. apply validate_markdown_input_quiet in Hv as Hq.
  destruct (quiet_counts _ _ Hq) as (A & E & S).
  destruct Hq as (_ & P & M & _ & T).
  unfold loop_start, attempts_made, engine_calls, sleeps in *. simpl. auto 10.
Qed.

Section Budget.

Variables (markdown_path output_path : Path) (config : PandocConfig).
Variables (metrics : option ConversionMetrics) (w : World).

Let m0 := metrics_or_fresh metrics.
Let s0 := enter w m0.
Let N := max_conversion_retries (retry_mechanism config).
Let delay := conversion_retry_delay (retry_mechanism config).


(** X13. What a call leaves alone, whatever it returns: the error entries
    of every other path; neither counter ever goes down, and together they
    grow by one at most; a call that returns a failure does not touch the
    per-file samples. *)
Theorem call_frame :
  exists r s',
    convert_markdown_to_docx markdown_path output_path config metrics w
    = Some (Ret r, s')
    /\ (forall key, key <> markdown_path ->
                    errors (st_metrics s') !! key = errors m0 !! key)
    /\ successful_conversions m0 <= successful_conversions (st_metrics s')
    /\ failed_conversions m0 <= failed_conversions (st_metrics s')
    /\ successful_conversions (st_metrics s') + failed_conversions (st_metrics s')
       <= successful_conversions m0 + failed_conversions m0 + 1
    /\ (is_success r = false -> samples (st_metrics s') = samples m0).
Proof.
  destruct (convert_cases markdown_path output_path config metrics w)
    as (r & s' & Hrun & Hcase).
  fold m0 s0 N delay in Hcase.
  exists r, s'. split; [exact Hrun|].
  assert (Hfail : forall msg, records_failure markdown_path msg m0 (st_metrics s') ->
            (forall key, key <> markdown_path ->
                         errors (st_metrics s') !! key = errors m0 !! key)
            /\ successful_conversions m0 <= successful_conversions (st_metrics s')
            /\ failed_conversions m0 <= failed_conversions (st_metrics s')
            /\ successful_conversions (st_metrics s') + failed_conversions (st_metrics s')
               <= successful_conversions m0 + failed_conversions m0 + 1
            /\ samples (st_metrics s') = samples m0).
  { intros msg (Su & Fa & Er & Sm).
    split; [intros key Hne; rewrite Er; apply lookup_insert_ne; congruence|].
    split; [lia|]. split; [lia|]. split; [lia|exact Sm]. }
  destruct Hcase as [(e & s1 & _ & -> & Hrec & _)
                    |(sz & s1 & k & _ & _ & _ & _ & Hpost)].
  - destruct (Hfail _ Hrec) as (H1 & H2 & H3 & H4 & H5). auto 10.
  - destruct r as [c msg|msg].
    + destruct Hpost as ((Su & Fa & Er & _) & _).
      split; [intros key _; rewrite Er; reflexivity|].
      split; [lia|]. split; [lia|]. split; [lia|]. discriminate.
    + destruct Hpost as [(_ & (msg' & Hrec) & _)|(_ & _ & _ & M & _)].
      * destruct (Hfail _ Hrec) as (H1 & H2 & H3 & H4 & H5). auto 10.
      * rewrite M. split; [reflexivity|]. split; [lia|]. split; [lia|].
        split; [lia|reflexivity].
Qed.

(** X14. Without [pypandoc] a call cannot succeed and the engine is never
    run: the call returns a failure. *)
Theorem without_pypandoc_no_success :
  w_pypandoc w = None ->
  exists msg s',
    convert_markdown_to_docx markdown_path output_path config metrics w
    = Some (Ret (error_result msg), s')
    /\ engine_calls s' = engine_calls s0.
Proof.
  intros Hnone.
  destruct (convert_cases markdown_path output_path config metrics w)
    as (r & s' & Hrun & Hcase).
  fold m0 s0 N delay in Hcase.
  destruct Hcase as [(e & s1 & _ & -> & _ & _ & E & _)|(sz & s1 & k & Hv & _)].
  - eexists _, s'. split; [exact Hrun|exact E].
  - destruct (loop_start_facts _ _ _ _ Hv) as (P & _ & _ & _ & E & _).
    assert (Hloop : forall o s2,
              retry_loop (Z.to_nat N) markdown_path output_path config
                (path_name markdown_path) sz N (loop_start s1) = Some (o, s2) ->
              engine_calls s2 = engine_calls s0
              /\ forall c m, o <> Ret (success_result c m)).
    { intros o s2 Hloop. rewrite <- E.
      apply (retry_loop_without_pypandoc _ _ _ _ _ _ _ _ _ _ Hloop).
      rewrite P. exact Hnone. }
    apply convert_via_loop in Hrun as Hvia.
    destruct Hvia as [(e & s1' & Hv' & _)|(sz' & s1' & Hv' & Hl)];
      fold m0 s0 in Hv'; [congruence|].
    assert (sz' = sz /\ s1' = s1) as [-> ->] by (split; congruence).
    fold N in Hl.
    destruct Hl as [Hl|(e & s2 & Hl & Hb)].
    + destruct (Hloop _ _ Hl) as [E' Hno].
      destruct r as [c m|msg]; [exfalso; exact (Hno c m eq_refl)|].
      exists msg, s'. split; [exact Hrun|exact E'].
    + destruct (Hloop _ _ Hl) as [E' _].
      destruct (boundary_handler_spec markdown_path e s2) as (s4 & Hb' & _ & T4 & _).
      rewrite Hb' in Hb. inversion Hb; subst r s4.
      eexists _, s'. split; [exact Hrun|].
      unfold engine_calls in *. rewrite T4. exact E'.
Qed.

End Budget.

Section Details.

Variables (markdown_path output_path : Path) (config : PandocConfig).
Variables (filename : string) (original_size max_retries : Z).

Let grows := adds_expected_events markdown_path output_path config.

Lemma grows_refl s : grows s s.
Proof. exists []. split; [reflexivity|constructor]. Qed.

Lemma grows_trans s1 s2 s3 : grows s1 s2 -> grows s2 s3 -> grows s1 s3.
Proof.
  intros (l1 & T1 & F1) (l2 & T2 & F2). exists (l2 ++ l1). split.
  - rewrite T2, T1. apply app_assoc.
  - apply Forall_app. split; assumption.
Qed.

Lemma grows_quiet s s' : quiet s s' -> grows s s'.
Proof.
  intros (_ & _ & _ & _ & logs & T & L). exists logs. split; [exact T|].
  clear T. induction logs as [|e logs IH]; [constructor|].
  simpl in L. apply andb_true_iff in L as [He Hl].
  constructor; [|auto]. destruct e; simpl in *; try discriminate; exact I.
Qed.

Lemma grows_cons e s s' :
  st_trace s' = e :: st_trace s ->
  expected_event markdown_path output_path config e -> grows s s'.
Proof. intros T He. exists [e]. split; [exact T|]. constructor; [exact He|constructor]. Qed.

Lemma convert_once_grows s o s' :
  _convert_markdown_to_docx_once markdown_path output_path config s = (o, s') ->
  grows s s'.
Proof.
  unfold _convert_markdown_to_docx_once, pypandoc_convert_file, try_except,
    bind, emit, get, raise, logger_debug, set_env, lift; simpl.
  destruct (negb (op_success _)); simpl.
  - intros H; inversion H; subst. apply (grows_cons Attempt); [reflexivity|exact I].
  - destruct (st_pypandoc s) as [convert_file|]; simpl.
    + destruct (convert_file _ _ _ _ _) as [[[]|e] env']; simpl;
        intros H; inversion H; subst;
        (eexists [_; _; _]; split; [reflexivity|]);
        repeat constructor.
    + intros H; inversion H; subst.
      eexists [_; _]; split; [reflexivity|]. repeat constructor.
Qed.

(** An attempt that returns has run the engine once. *)
Lemma convert_once_returns s u s' :
  _convert_markdown_to_docx_once markdown_path output_path config s = (Ret u, s') ->
  engine_calls s' = S (engine_calls s).
Proof.
  unfold _convert_markdown_to_docx_once, pypandoc_convert_file, try_except,
    bind, emit, get, raise, logger_debug, set_env, lift; simpl.
  destruct (negb (op_success _)); simpl; [discriminate|].
  destruct (st_pypandoc s) as [convert_file|]; simpl; [|discriminate].
  destruct (convert_file _ _ _ _ _) as [[[]|e] env']; simpl;
    intros H; inversion H; subst. reflexivity.
Qed.

Lemma get_conversion_output_value start_time s conversion_time output_size s' :
  _get_conversion_output output_path start_time s
  = (Ret (conversion_time, output_size), s') ->
  quiet s s'
  /\ conversion_time = env_now (st_env s) - start_time
  /\ size_taken (fi_size (get_file_info (st_env s) output_path)) = Ret output_size
  /\ fi_success (get_file_info (st_env s) output_path) = true.
Proof.
  unfold _get_conversion_output. unfold bind at 1. unfold time_time at 1.
  unfold bind at 1. unfold get at 1.
  destruct (fi_success _) eqn:Hok; cbn [negb]; [|discriminate].
  intros H.
  size_block_in H (fi_size (get_file_info (st_env s) output_path)) s1 Hq.
  destruct (size_taken _) as [n|e]; [|discriminate].
  unfold ret in H. inversion H; subst. auto.
Qed.

(** The body of the [try] in detail: the events it adds, and what a
    [return] inside it hands back. *)
Lemma attempt_body_detail start_time s o s' :
  attempt_body markdown_path output_path config filename
    original_size max_retries start_time s = (o, s') ->
  grows s s'
  /\ match o with
     | Ret (Returned (success_result content message)) =>
         (exists output_size,
            content = (output_path,
                       mkDetails "markdown" "docx" (env_now (st_env s') - start_time)
                         output_size original_size)
            /\ size_taken (fi_size (get_file_info (st_env s') output_path))
               = Ret output_size)
         /\ message = "Successfully converted " +:+ markdown_path +:+ " to DOCX"
         /\ validation_outcome output_path original_size config (st_env s') = Ret []
         /\ fi_success (get_file_info (st_env s') output_path) = true
         /\ engine_calls s' = S (engine_calls s)
     | Ret (Returned (error_result msg)) =>
         exists errs,
           validation_outcome output_path original_size config (st_env s') = Ret errs
           /\ errs <> []
           /\ msg = "Conversion failed after maximum retries: " +:+ join "; " errs
           /\ errors (st_metrics s')
              = <[markdown_path := join "; " errs]> (errors (st_metrics s))
     | _ => True
     end.
Proof.
  unfold attempt_body. intros H.
  apply bind_inv in H as [(u & s1 & H1 & H)|(e & H1 & ->)].
  2:{ split; [eapply convert_once_grows; exact H1|exact I]. }
  pose proof (convert_once_grows _ _ _ H1) as G1.
  pose proof (convert_once_returns _ _ _ H1) as E1.
  apply convert_once_spec in H1 as (_ & M1 & _).
  apply bind_inv in H as [(out & s2 & H2 & H)|(e & H2 & ->)].
  2:{ apply get_conversion_output_spec in H2 as Hq2.
      split; [|exact I]. eapply grows_trans; [exact G1|apply grows_quiet; exact Hq2]. }
  destruct out as [conversion_time output_size].
  apply get_conversion_output_value in H2 as (Hq2 & -> & Hsize & Hok).
  destruct (validate_conversion_spec output_path markdown_path original_size config s2)
    as (s3 & Hv & Hq3).
  pose proof (quiet_trans _ _ _ Hq2 Hq3) as Hq.
  assert (G3 : grows s s3) by (eapply grows_trans; [exact G1|apply grows_quiet; exact Hq]).
  destruct (quiet_counts _ _ Hq) as (_ & E3 & _).
  destruct Hq as (Env3 & _ & M3 & _ & _).
  destruct Hq2 as (Env2 & _).
  unfold bind at 1 in H. rewrite Hv in H. rewrite Env2 in H.
  destruct (validation_outcome output_path original_size config (st_env s1))
    as [[|first_error more_errors]|e] eqn:Herrs.
  - revert H.
    unfold track_metrics, incr_successful_conversions, bind, time_time, get,
      set_metrics, ret; simpl.
    intros H; inversion H; subst; clear H. simpl.
    rewrite Env3.
    split; [destruct G3 as (evs & T & F); exists evs; auto|].
    split; [exists output_size; split; [reflexivity|exact Hsize]|].
    split; [reflexivity|]. split; [exact Herrs|].
    split; [exact Hok|].
    unfold engine_calls in *. simpl. congruence.
  - revert H.
    unfold incr_retry_count, incr_failed_conversions, set_error, time_sleep,
      logger_warning, logger_error, bind, get, set_retry_count, set_metrics,
      set_env, emit, ret, raise; simpl.
    destruct (st_retry_count s3 + 1 >=? max_retries); simpl.
    + intros H; inversion H; subst; clear H. simpl. split.
      * eapply grows_trans; [exact G3|]. eexists [_]. split; [reflexivity|].
        repeat constructor.
      * exists (first_error :: more_errors). rewrite Env3, Herrs, M3, M1.
        split; [reflexivity|]. split; [discriminate|]. split; reflexivity.
    + destruct ((conversion_retry_delay (retry_mechanism config) <? - sleep_limit)
                || (sleep_limit <=? conversion_retry_delay (retry_mechanism config)));
        [|destruct (conversion_retry_delay (retry_mechanism config) <? 0)]; simpl;
        intros H; inversion H; subst; clear H; (split; [|exact I]);
        (eapply grows_trans; [exact G3|]); (eexists [_; _; _]; split; [reflexivity|]);
        repeat constructor.
  - inversion H; subst; clear H. split; [exact G3|exact I].
Qed.

Lemma attempt_handler_grows e s o s' :
  attempt_handler markdown_path config max_retries e s = (o, s') -> grows s s'.
Proof.
  unfold attempt_handler, incr_retry_count, incr_failed_conversions, set_error,
    time_sleep, logger_warning, bind, get, set_retry_count, set_metrics, set_env,
    emit, ret, raise; simpl.
  destruct (st_retry_count s + 1 >=? max_retries); simpl.
  - intros H; inversion H; subst. eexists [_]. split; [reflexivity|]. repeat constructor.
  - destruct ((conversion_retry_delay (retry_mechanism config) <? - sleep_limit)
              || (sleep_limit <=? conversion_retry_delay (retry_mechanism config)));
      [|destruct (conversion_retry_delay (retry_mechanism config) <? 0)]; simpl;
      intros H; inversion H; subst; (eexists [_; _]; split; [reflexivity|]);
      repeat constructor.
Qed.

(** One pass in detail. *)
Lemma one_pass_detail start_time s o s' :
  try_except
    (attempt_body markdown_path output_path config filename
       original_size max_retries start_time)
    (attempt_handler markdown_path config max_retries) s = (o, s') ->
  grows s s'
  /\ match o with
     | Ret (Returned (success_result content message)) =>
         (exists output_size,
            content = (output_path,
                       mkDetails "markdown" "docx" (env_now (st_env s') - start_time)
                         output_size original_size)
            /\ size_taken (fi_size (get_file_info (st_env s') output_path))
               = Ret output_size)
         /\ message = "Successfully converted " +:+ markdown_path +:+ " to DOCX"
         /\ validation_outcome output_path original_size config (st_env s') = Ret []
         /\ fi_success (get_file_info (st_env s') output_path) = true
         /\ engine_calls s' = S (engine_calls s)
     | Ret (Returned (error_result msg)) =>
         exists prefix m,
           failure_prefix prefix /\ msg = prefix +:+ m
           /\ errors (st_metrics s') = <[markdown_path := m]> (errors (st_metrics s))
     | _ => True
     end.
Proof.
  intros H. apply try_except_inv in H as [(a & Hb & ->)|(e & s1 & Hb & Hh)].
  - apply attempt_body_detail in Hb as [G Hpost]. split; [exact G|].
    destruct a as [[c m|msg]|]; [exact Hpost| |exact I].
    destruct Hpost as (errs & _ & _ & -> & Er).
    eexists _, _. split; [left; reflexivity|]. split; [reflexivity|exact Er].
  - pose proof (attempt_body_spec _ _ _ _ _ _ _ _ _ _ Hb) as (_ & _ & _ & M1 & _).
    apply attempt_body_detail in Hb as [G1 _].
    pose proof (attempt_handler_grows _ _ _ _ Hh) as G2.
    apply attempt_handler_spec in Hh as (_ & _ & _ & _ & Hpost).
    split; [eapply grows_trans; eassumption|].
    destruct o as [[r|]|e']; [|exact I|exact I].
    destruct Hpost as (-> & (_ & _ & Er & _) & _).
    eexists _, (exn_msg e). split; [|split; [reflexivity|rewrite <- M1; exact Er]].
    destruct (is_QuackIntegrationError e); [right; left|right; right]; reflexivity.
Qed.

(** The loop in detail. *)
Lemma retry_loop_detail fuel s o s' :
  retry_loop fuel markdown_path output_path config filename
    original_size max_retries s = Some (o, s') ->
  grows s s'
  /\ match o with
     | Ret (success_result content message) =>
         (exists conversion_time output_size,
            content = (output_path,
                       mkDetails "markdown" "docx" conversion_time
                         output_size original_size)
            /\ size_taken (fi_size (get_file_info (st_env s') output_path))
               = Ret output_size)
         /\ message = "Successfully converted " +:+ markdown_path +:+ " to DOCX"
         /\ validation_outcome output_path original_size config (st_env s') = Ret []
         /\ fi_success (get_file_info (st_env s') output_path) = true
         /\ (engine_calls s < engine_calls s')%nat
     | Ret (error_result msg) =>
         st_retry_count s < max_retries ->
         exists prefix m,
           failure_prefix prefix /\ msg = prefix +:+ m
           /\ errors (st_metrics s') = <[markdown_path := m]> (errors (st_metrics s))
     | Raise _ => True
     end.
Proof.
  apply (retry_loop_rule markdown_path output_path config filename
           original_size max_retries
           (fun s o s' =>
              grows s s'
              /\ match o with
                 | Ret (success_result content message) =>
                     (exists conversion_time output_size,
                        content
                        = (output_path,
                           mkDetails "markdown" "docx" conversion_time
                             output_size original_size)
                        /\ size_taken (fi_size (get_file_info (st_env s') output_path))
                           = Ret output_size)
                     /\ message = "Successfully converted " +:+ markdown_path +:+ " to DOCX"
                     /\ validation_outcome output_path original_size config (st_env s')
                        = Ret []
                     /\ fi_success (get_file_info (st_env s') output_path) = true
                     /\ (engine_calls s < engine_calls s')%nat
                 | Ret (error_result msg) =>
                     st_retry_count s < max_retries ->
                     exists prefix m,
                       failure_prefix prefix /\ msg = prefix +:+ m
                       /\ errors (st_metrics s')
                          = <[markdown_path := m]> (errors (st_metrics s))
                 | Raise _ => True
                 end)).
  - intros s0 Hge. split; [apply grows_refl|]. intros Hlt. lia.
  - intros s0 r s1 _ Hp. apply one_pass_detail in Hp as [G Hpost].
    split; [exact G|]. destruct r as [c m|msg].
    + destruct Hpost as ((osz & Hc & Hsz) & Hm & Hv & Hok & E).
      split; [eexists _, osz; split; [exact Hc|exact Hsz]|].
      split; [exact Hm|]. split; [exact Hv|].
      split; [exact Hok|lia].
    + intros _. exact Hpost.
  - intros s0 e s1 _ Hp. apply one_pass_detail in Hp as [G _]. split; [exact G|exact I].
  - intros s0 s1 o0 s2 _ Hp [G2 Hpost].
    pose proof (one_pass_spec _ _ _ _ _ _ _ _ _ _ Hp) as (_ & _ & E & M1 & _ & Hlt1 & _).
    apply one_pass_detail in Hp as [G1 _].
    split; [eapply grows_trans; eassumption|].
    destruct o0 as [[c m|msg]|e]; [| |exact I].
    + destruct Hpost as (Hc & Hm & Hv & Hok & E2).
      split; [exact Hc|]. split; [exact Hm|]. split; [exact Hv|].
      split; [exact Hok|]. destruct E; lia.
    + intros _. rewrite <- M1. apply Hpost. exact Hlt1.
Qed.

End Details.

(** The size [_validate_markdown_input] returns is the one the size block
    has taken. *)
Lemma validate_markdown_input_value markdown_path s n s' :
  _validate_markdown_input markdown_path s = (Ret n, s') ->
  size_taken (fi_size (get_file_info (st_env s) markdown_path)) = Ret n.
Proof.
  unfold _validate_markdown_input. unfold bind at 1. unfold get at 1.
  destruct (negb _ || negb _); [discriminate|].
  intros H.
  size_block_in H (fi_size (get_file_info (st_env s) markdown_path)) s1 Hq.
  destruct (size_taken _) as [n0|e0]; [|discriminate].
  unfold bind, try_except, get, lift, raise, ret in H.
  destruct (read_text (st_env s1) markdown_path) as [rr|e].
  - destruct (negb (rr_success rr)); simpl in H; [discriminate|].
    destruct (rr_content rr) as [text|]; simpl in H; [|discriminate].
    destruct (negb (text_truthy _)); simpl in H; inversion H; reflexivity.
  - destruct (is_QuackIntegrationError e); discriminate.
Qed.

Lemma expected_logs markdown_path output_path config logs :
  forallb is_log logs = true ->
  Forall (expected_event markdown_path output_path config) logs.
Proof.
  induction logs as [|e logs IH]; [constructor|].
  simpl. intros L. apply andb_true_iff in L as [He Hl].
  constructor; [|auto]. destruct e; simpl in *; try discriminate; exact I.
Qed.

Section CallDetails.

Variables (markdown_path output_path : Path) (config : PandocConfig).
Variables (metrics : option ConversionMetrics) (w : World).

Let m0 := metrics_or_fresh metrics.
Let s0 := enter w m0.
Let N := max_conversion_retries (retry_mechanism config).
Let delay := conversion_retry_delay (retry_mechanism config).

(** A returning call in detail. *)
Lemma convert_detail r s' :
  convert_markdown_to_docx markdown_path output_path config metrics w
  = Some (Ret r, s') ->
  adds_expected_events markdown_path output_path config s0 s'
  /\ match r with
     | success_result content message =>
         exists original_size,
           size_taken (fi_size (get_file_info (w_env w) markdown_path))
           = Ret original_size
           /\ (exists conversion_time output_size,
                 content
                 = (output_path,
                    mkDetails "markdown" "docx" conversion_time
                      output_size original_size)
                 /\ size_taken (fi_size (get_file_info (st_env s') output_path))
                    = Ret output_size)
           /\ message = "Successfully converted " +:+ markdown_path +:+ " to DOCX"
           /\ validation_outcome output_path original_size config (st_env s') = Ret []
           /\ fi_success (get_file_info (st_env s') output_path) = true
           /\ (engine_calls s0 < engine_calls s')%nat
     | error_result msg =>
         1 <= N ->
         exists prefix m,
           failure_prefix prefix /\ msg = prefix +:+ m
           /\ errors (st_metrics s') = <[markdown_path := m]> (errors m0)
     end.
Proof.
  intros Hrun.
  apply convert_via_loop in Hrun
    as [(e & s1 & Hv & Hb)|(size & s1 & Hv & Hloop)]; fold m0 s0 in Hv.
  - apply validate_markdown_input_quiet in Hv as Hq.
    destruct (boundary_handler_spec markdown_path e s1) as (s4 & Hb' & Hrec & T4 & _).
    rewrite Hb' in Hb. inversion Hb; subst r s4. split.
    + apply (grows_quiet markdown_path output_path config) in Hq.
      destruct Hq as (evs & T & F). exists evs. rewrite T4. auto.
    + intros _. destruct Hrec as (_ & _ & Er & _). destruct Hq as (_ & _ & M & _).
      eexists _, (exn_msg e). split; [right; right; reflexivity|].
      split; [reflexivity|]. rewrite Er, M. reflexivity.
  - pose proof (validate_markdown_input_value _ _ _ _ Hv) as Hsize.
    change (st_env s0) with (w_env w) in Hsize.
    destruct (loop_start_facts _ _ _ _ Hv) as (_ & M & R & _ & E & _ & logs & T & L).
    assert (G0 : adds_expected_events markdown_path output_path config s0 (loop_start s1))
      by (exists logs; split; [exact T|apply expected_logs; exact L]).
    fold N in Hloop.
    destruct Hloop as [Hloop|(e & s2 & Hloop & Hb)].
    + apply retry_loop_detail in Hloop as [G Hpost].
      split; [eapply grows_trans; eassumption|].
      destruct r as [c m|msg].
      * exists size. split; [exact Hsize|]. rewrite <- E. exact Hpost.
      * intros HN. rewrite M, R in Hpost. apply Hpost. lia.
    + apply retry_loop_detail in Hloop as Hd. destruct Hd as [G _].
      destruct (retry_loop_total markdown_path output_path config
                  (path_name markdown_path) size N (Z.to_nat N) (loop_start s1))
        as (o & s3 & Hloop' & k & _ & _ & _ & _ & Hpost); [rewrite R; lia|].
      rewrite Hloop in Hloop'. inversion Hloop'; subst o s3.
      destruct Hpost as (M2 & _).
      destruct (boundary_handler_spec markdown_path e s2) as (s4 & Hb' & Hrec & T4 & _).
      rewrite Hb' in Hb. inversion Hb; subst r s4. split.
      * destruct (grows_trans _ _ _ _ _ _ G0 G) as (evs & T' & F).
        exists evs. rewrite T4. auto.
      * intros _. destruct Hrec as (_ & _ & Er & _).
        eexists _, (exn_msg e). split; [right; right; reflexivity|].
        split; [reflexivity|]. rewrite Er, M2, M. reflexivity.
Qed.

(** X15. A call reports success only for an artifact that is in order: in
    the state it returns in, the file service reports the output as
    existing, [validate_conversion] run again for the same input size finds
    nothing, and the engine has run at least once during the call. *)
Theorem success_means_validated_artifact content message s' :
  convert_markdown_to_docx markdown_path output_path config metrics w
  = Some (Ret (success_result content message), s') ->
  (exists s'',
     validate_conversion output_path markdown_path (input_size (snd content)) config s'
     = (Ret [], s''))
  /\ fi_success (get_file_info (st_env s') output_path) = true
  /\ fi_exists (get_file_info (st_env s') output_path) = true
  /\ (engine_calls s0 < engine_calls s')%nat.
Proof.
  intros Hrun.
  apply convert_detail in Hrun
    as (_ & isz & _ & (ct & osz & -> & _) & _ & Hv & Hok & E).
  simpl. split; [|split; [exact Hok|split; [|exact E]]].
  - destruct (validate_conversion_spec output_path markdown_path isz config s')
      as (s'' & Hrun' & _).
    exists s''. rewrite Hrun', Hv. reflexivity.
  - revert Hv. unfold validation_outcome. rewrite Hok.
    destruct (fi_exists _); [reflexivity|discriminate].
Qed.

(** X16. What a success carries: the output path as given, the formats
    [markdown] and [docx], as input size what the size block has taken from
    the size reported for the input when the call began, as output size what
    it takes from the size reported for the output when the call returns
    (the integer [int] gives, [0] for [None] and for a [TypeError] or
    [ValueError] of [int]), and the message that names the source. *)
Theorem success_result_contents content message s' :
  convert_markdown_to_docx markdown_path output_path config metrics w
  = Some (Ret (success_result content message), s') ->
  fst content = output_path
  /\ source_format (snd content) = "markdown"
  /\ target_format (snd content) = "docx"
  /\ size_taken (fi_size (get_file_info (w_env w) markdown_path))
     = Ret (input_size (snd content))
  /\ size_taken (fi_size (get_file_info (st_env s') output_path))
     = Ret (output_size (snd content))
  /\ message = "Successfully converted " +:+ markdown_path +:+ " to DOCX".
Proof.
  intros Hrun.
  apply convert_detail in Hrun
    as (_ & isz & Hin & (ct & osz & -> & Hout) & -> & _).
  simpl. split; [reflexivity|]. split; [reflexivity|]. split; [reflexivity|].
  split; [exact Hin|]. split; [exact Hout|reflexivity].
Qed.

(** X17. With at least one attempt allowed, the message of a failure is one
    of three openings followed by exactly the text the call stored for the
    source path in the error map. *)
Theorem failure_message_carries_recorded_error msg s' :
  1 <= N ->
  convert_markdown_to_docx markdown_path output_path config metrics w
  = Some (Ret (error_result msg), s') ->
  exists prefix text,
    failure_prefix prefix
    /\ msg = prefix +:+ text
    /\ errors (st_metrics s') !! markdown_path = Some text.
Proof.
  intros HN Hrun. apply convert_detail in Hrun as (_ & Hpost).
  destruct (Hpost HN) as (prefix & m & Hp & -> & Er).
  exists prefix, m. split; [exact Hp|]. split; [reflexivity|].
  rewrite Er. apply lookup_insert_eq.
Qed.

(** X18. Every sleep of a call lasts the configured delay, the same after
    every failed attempt: the events a call adds to the trace contain no
    sleep of another length. *)
Theorem sleeps_use_configured_delay :
  exists r s' evs,
    convert_markdown_to_docx markdown_path output_path config metrics w
    = Some (Ret r, s')
    /\ st_trace s' = evs ++ w_trace w
    /\ forall d, In (Sleep d) evs -> d = delay.
Proof.
  destruct (convert_cases markdown_path output_path config metrics w)
    as (r & s' & Hrun & _).
  apply convert_detail in Hrun as Hd. destruct Hd as ((evs & T & F) & _).
  exists r, s', evs. split; [exact Hrun|]. split; [exact T|].
  intros d Hin. exact (proj1 (List.Forall_forall _ _) F _ Hin).
Qed.

(** X19. Every engine run of a call is on the same arguments: the Markdown
    path and the output path of the call and the argument list prepared
    from the configuration. *)
Theorem engine_runs_use_call_arguments :
  exists r s' evs,
    convert_markdown_to_docx markdown_path output_path config metrics w
    = Some (Ret r, s')
    /\ st_trace s' = evs ++ w_trace w
    /\ forall src dst args,
         In (EngineCall src dst args) evs ->
         src = markdown_path /\ dst = output_path
         /\ args = prepare_pandoc_args config "markdown" "docx"
                     (md_to_docx_extra_args config).
Proof.
  destruct (convert_cases markdown_path output_path config metrics w)
    as (r & s' & Hrun & _).
  apply convert_detail in Hrun as Hd. destruct Hd as ((evs & T & F) & _).
  exists r, s', evs. split; [exact Hrun|]. split; [exact T|].
  intros src dst args Hin. exact (proj1 (List.Forall_forall _ _) F _ Hin).
Qed.

(** The counters and the error map after a failure, with at least one
    attempt allowed. *)
Lemma failure_records msg s' :
  1 <= N ->
  convert_markdown_to_docx markdown_path output_path config metrics w
  = Some (Ret (error_result msg), s') ->
  exists prefix text,
    failure_prefix prefix /\ msg = prefix +:+ text
    /\ errors (st_metrics s') = <[markdown_path := text]> (errors m0)
    /\ successful_conversions (st_metrics s') = successful_conversions m0
    /\ failed_conversions (st_metrics s') = failed_conversions m0 + 1.
Proof.
  intros HN Hrun.
  destruct (convert_cases markdown_path output_path config metrics w)
    as (r & s'' & Hrun' & Hcase).
  fold m0 s0 N delay in Hcase.
  rewrite Hrun in Hrun'. inversion Hrun'; subst r s''; clear Hrun'.
  apply convert_detail in Hrun as (_ & Hpost).
  destruct (Hpost HN) as (prefix & text & Hp & -> & Er).
  exists prefix, text. split; [exact Hp|]. split; [reflexivity|]. split; [exact Er|].
  destruct Hcase as [(e & s1 & _ & _ & (Su & Fa & _) & _)
                    |(sz & s1 & k & _ & _ & _ & _ & Hc)]; [auto|].
  destruct Hc as [(_ & (msg' & Su & Fa & _) & _)|(Hle & _)]; [auto|lia].
Qed.

End CallDetails.

(** X20. Failing twice on the same source path leaves one entry for it in
    the error map, holding the text of the second failure, next to
    whatever other paths had; [failed_conversions] has grown by two. The
    second call may use another output path, configuration and world. *)
Theorem repeated_failure_overwrites markdown_path output1 output2 config1 config2
    metrics w1 w2 msg1 s1 msg2 s2 :
  1 <= max_conversion_retries (retry_mechanism config1) ->
  1 <= max_conversion_retries (retry_mechanism config2) ->
  convert_markdown_to_docx markdown_path output1 config1 metrics w1
  = Some (Ret (error_result msg1), s1) ->
  convert_markdown_to_docx markdown_path output2 config2 (Some (st_metrics s1)) w2
  = Some (Ret (error_result msg2), s2) ->
  exists prefix text,
    failure_prefix prefix /\ msg2 = prefix +:+ text
    /\ errors (st_metrics s2)
       = <[markdown_path := text]> (errors (metrics_or_fresh metrics))
    /\ failed_conversions (st_metrics s2)
       = failed_conversions (metrics_or_fresh metrics) + 2
    /\ successful_conversions (st_metrics s2)
       = successful_conversions (metrics_or_fresh metrics).
Proof.
  intros HN1 HN2 Hrun1 Hrun2.
  apply failure_records in Hrun1 as (p1 & t1 & _ & _ & Er1 & Su1 & Fa1); [|exact HN1].
  apply failure_records in Hrun2 as (p2 & t2 & Hp2 & -> & Er2 & Su2 & Fa2); [|exact HN2].
  simpl in Er2, Su2, Fa2.
  exists p2, t2. split; [exact Hp2|]. split; [reflexivity|].
  split; [rewrite Er2, Er1; apply insert_insert_eq|]. split; lia.
Qed.

(** ** The theorems at the scenarios *)

Module Witness.
Import Scenario.

(** Scenario A: a 400-byte artifact from the 500-byte input passes both
    checks. *)
Example scenario_A :
  observe (convert_markdown_to_docx source target (config 3) None
             (world (engine_writes 400)))
  = Some (Ret (success_result (target, mkDetails "markdown" "docx" 7 400 500)
                 "Successfully converted docs/report.md to DOCX"),
          1, 0, [], (1, 1, 0)%nat).
Proof. vm_compute. reflexivity. Qed.

(** Scenario B: a 10-byte artifact, two attempts allowed: the engine runs
    twice, one sleep lies between, one failure is recorded. *)
Example scenario_B :
  exists msg,
    observe (convert_markdown_to_docx source target (config 2) None
               (world (engine_writes 10)))
    = Some (Ret (error_result ("Conversion failed after maximum retries: " +:+ msg)),
            0, 1, [(source, msg)], (2, 2, 1)%nat).
Proof. eexists. vm_compute. reflexivity. Qed.

(** Scenario C: no input file, no engine run. *)
Example scenario_C :
  observe (convert_markdown_to_docx source target (config 3) None
             (missing_world (engine_writes 400)))
  = Some (Ret (error_result
                 "Failed to convert Markdown to DOCX: Input file not found: docs/report.md"),
          0, 1, [(source, "Input file not found: docs/report.md")], (0, 0, 0)%nat).
Proof. vm_compute. reflexivity. Qed.

(** Scenario D: the engine raises once and then succeeds: two attempts, one
    sleep, one success and no failure recorded. *)
Example scenario_D :
  observe (convert_markdown_to_docx source target (config 3) None
             (world (engine_fails_once 400)))
  = Some (Ret (success_result (target, mkDetails "markdown" "docx" 7 400 500)
                 "Successfully converted docs/report.md to DOCX"),
          1, 0, [], (2, 2, 1)%nat).
Proof. vm_compute. reflexivity. Qed.

(** A negative delay: the sleep after the first failed attempt raises, the
    boundary handler records it. *)
Example negative_delay :
  observe (convert_markdown_to_docx source target (negative_delay_config 3)
             None (world engine_broken))
  = Some (Ret (error_result
                 "Failed to convert Markdown to DOCX: sleep length must be non-negative"),
          0, 1, [(source, "sleep length must be non-negative")], (1, 1, 1)%nat).
Proof. vm_compute. reflexivity. Qed.

(** A negative delay after a failed validation, two attempts allowed: the
    sleep raises inside the [try], the inner handler counts it as the
    second failure and records it on the first attempt. *)
Example negative_delay_after_validation :
  observe (convert_markdown_to_docx source target (negative_delay_config 2)
             None (world (engine_writes 10)))
  = Some (Ret (error_result
                 "Failed to convert Markdown to DOCX: sleep length must be non-negative"),
          0, 1, [(source, "sleep length must be non-negative")], (1, 1, 1)%nat).
Proof. vm_compute. reflexivity. Qed.

(** A size that is the float infinity: [int] raises an [OverflowError],
    which no handler of [_validate_markdown_input] catches. *)
Example infinite_size :
  fst (_validate_markdown_input source infinite_size_state)
  = Raise (mkExn OverflowError "cannot convert float infinity to integer" []).
Proof. vm_compute. reflexivity. Qed.

(** Scenario B: two attempts, both undersized. *)
Lemma one_counter_per_call_witness :
  1 <= max_conversion_retries (retry_mechanism (config 2))
  /\ exists r s',
       convert_markdown_to_docx source target (config 2) None (world (engine_writes 10))
       = Some (Ret r, s')
       /\ match r with
          | success_result _ _ =>
              successful_conversions (st_metrics s') = 0 + 1
              /\ failed_conversions (st_metrics s') = 0
              /\ errors (st_metrics s') = ∅
          | error_result _ =>
              successful_conversions (st_metrics s') = 0
              /\ failed_conversions (st_metrics s') = 0 + 1
              /\ exists msg, errors (st_metrics s') = <[source := msg]> ∅
          end.
Proof.
  split; [simpl; lia|].
  apply (one_counter_per_call source target (config 2) None (world (engine_writes 10))).
  simpl. lia.
Defined.



(** Scenario C: the input file is missing. *)
Lemma invalid_input_fails_at_once_witness :
  exists s',
    convert_markdown_to_docx source target (config 3) None
      (missing_world (engine_writes 400))
    = Some (Ret (error_result
                   "Failed to convert Markdown to DOCX: Input file not found: docs/report.md"),
            s')
    /\ engine_calls s' = O /\ attempts_made s' = O /\ sleeps s' = O
    /\ failed_conversions (st_metrics s') = 1.
Proof.
  destruct (invalid_input_fails_at_once source target (config 3) None
              (missing_world (engine_writes 400)))
    as (e & s1 & s' & _ & Hrun & (_ & Fa & _) & A & E & S & Hmsg);
    [left; reflexivity|].
  destruct (Hmsg eq_refl) as [_ Hm]. rewrite Hm in Hrun.
  exists s'. split; [exact Hrun|].
  split; [exact E|]. split; [exact A|]. split; [exact S|exact Fa].
Defined.

(** No retries allowed, valid input. *)
Lemma no_retries_no_record_witness :
  max_conversion_retries (retry_mechanism (config 0)) <= 0
  /\ exists s',
       convert_markdown_to_docx source target (config 0) None (world (engine_writes 400))
       = Some (Ret (error_result "Conversion failed after maximum retries"), s')
       /\ st_metrics s' = fresh_metrics /\ engine_calls s' = O.
Proof.
  split; [simpl; lia|].
  destruct (no_retries_no_record source target (config 0) None
              (world (engine_writes 400)) 500
              (enter (world (engine_writes 400)) fresh_metrics))
    as (s' & Hrun & M & _ & E & _); [simpl; lia|reflexivity|].
  exists s'. split; [exact Hrun|]. split; [exact M|exact E].
Defined.

(** Scenario A after an earlier failure of the same file. *)
Lemma success_keeps_errors_witness :
  exists content message s',
    convert_markdown_to_docx source target (config 3) (Some stale_metrics)
      (world (engine_writes 400))
    = Some (Ret (success_result content message), s')
    /\ errors (st_metrics s') !! source = Some "Pandoc conversion failed: pandoc died"
    /\ successful_conversions (st_metrics s') = 1.
Proof.
  destruct (convert_markdown_to_docx source target (config 3) (Some stale_metrics)
              (world (engine_writes 400)))
    as [[[[content message|msg]|e] s']|] eqn:Hrun;
    try (vm_compute in Hrun; discriminate Hrun).
  exists content, message, s'. split; [reflexivity|].
  destruct (success_keeps_errors source target (config 3) (Some stale_metrics)
              (world (engine_writes 400)) content message s' Hrun)
    as (_ & Hkeep & _ & Su & _).
  split; [apply Hkeep; reflexivity|exact Su].
Defined.

Lemma empty_artifact_is_flagged_witness :
  exists errs s',
    validate_conversion target source 500 (config 3) empty_artifact_state = (Ret errs, s')
    /\ errs <> [].
Proof.
  destruct (empty_artifact_is_flagged target source 500 (config 3) empty_artifact_state)
    as (errs & s' & Hrun & Hne & _);
    [reflexivity|lia|reflexivity|reflexivity|reflexivity|].
  exists errs, s'. split; [exact Hrun|exact Hne].
Defined.




(** The title mentions the source: nothing is logged. *)
Example metadata_found :
  run_validation (docx_titled "Draft of report.md") = (Ret [], []).
Proof. vm_compute. reflexivity. Qed.

(** The title does not: one debug line, the same empty list. *)
Example metadata_missing :
  run_validation (docx_titled "Untitled")
  = (Ret [], [LogDebug "Source file reference missing in document metadata: report.md"]).
Proof. vm_compute. reflexivity. Qed.

(** python-docx is not installed: one debug line, the same empty list. *)
Example metadata_unavailable :
  run_validation (Raise (mkExn ImportError "No module named 'docx'" []))
  = (Ret [], [LogDebug "python-docx not available for detailed metadata check"]).
Proof. vm_compute. reflexivity. Qed.

(** The extra theorems at the scenarios. *)


Lemma blank_input_is_rejected_witness :
  exists s',
    _validate_markdown_input source (state_of blank_env None)
    = (Raise (QuackIntegrationError_ "Markdown file is empty: docs/report.md"
                [("path", source)]), s').
Proof.
  destruct (blank_input_is_rejected source (state_of blank_env None)
              (mkReadResult true (Some [32; 160; 12288; 10]%N) "")
              [32; 160; 12288; 10]%N 500)
    as (s' & Hrun & _);
    [reflexivity|reflexivity|reflexivity|reflexivity|reflexivity|reflexivity
    |reflexivity|].
  exists s'. exact Hrun.
Defined.


Lemma no_directory_no_engine_witness :
  exists e s',
    _convert_markdown_to_docx_once source target (config 3)
      (state_of no_directory_env (Some (engine_writes 400))) = (Raise e, s')
    /\ engine_calls s' = O.
Proof.
  destruct (no_directory_no_engine source target (config 3)
              (state_of no_directory_env (Some (engine_writes 400))))
    as (s' & Hrun & _ & _ & E); [reflexivity|].
  eexists _, s'. split; [exact Hrun|exact E].
Defined.

Lemma attempt_returns_after_one_engine_run_witness :
  exists s',
    _convert_markdown_to_docx_once source target (config 3)
      (state_of base_env (Some (engine_writes 400))) = (Ret tt, s')
    /\ engine_calls s' = 1%nat.
Proof.
  destruct (_convert_markdown_to_docx_once source target (config 3)
              (state_of base_env (Some (engine_writes 400))))
    as [[[]|e] s'] eqn:Hrun; [|vm_compute in Hrun; discriminate Hrun].
  exists s'. split; [reflexivity|].
  destruct (attempt_returns_after_one_engine_run source target (config 3) _ s' Hrun)
    as (convert_file & _ & _ & _ & E & _).
  exact E.
Defined.


Lemma structure_check_is_gated_witness :
  exists s',
    validate_conversion target source 500 (config 3)
      (state_of (write_artifact target 400 base_env) None) = (Ret [], s').
Proof.
  destruct (structure_check_is_gated target source 500 (config 3)
              (state_of (write_artifact target 400 base_env) None) 400)
    as (s' & Hrun & _); [reflexivity|reflexivity|reflexivity|reflexivity|].
  exists s'. exact Hrun.
Defined.

Lemma silent_structure_verdict_passes_witness :
  exists s',
    validate_conversion target source 500 checking_config
      (state_of silent_verdict_env None) = (Ret [], s').
Proof.
  apply (silent_structure_verdict_passes target source 500 checking_config
           (state_of silent_verdict_env None) 400); reflexivity.
Defined.

Lemma metadata_reference_logging_witness :
  exists s',
    _check_docx_metadata target source true (checked_state (docx_titled "Untitled"))
    = (Ret tt, s')
    /\ st_trace s'
       = [LogDebug "Source file reference missing in document metadata: report.md"].
Proof.
  destruct (metadata_reference_logging target source true
              (checked_state (docx_titled "Untitled"))
              (fun _ => Ret (titled_document "Untitled")) (titled_document "Untitled"))
    as (s' & Hrun & _ & _ & T); [reflexivity|reflexivity|].
  exists s'. split; [exact Hrun|exact T].
Defined.


Lemma without_pypandoc_no_success_witness :
  exists msg s',
    convert_markdown_to_docx source target (config 3) None (mkWorld base_env None [])
    = Some (Ret (error_result msg), s')
    /\ engine_calls s' = O.
Proof.
  apply (without_pypandoc_no_success source target (config 3) None
           (mkWorld base_env None [])).
  reflexivity.
Defined.

Lemma success_means_validated_artifact_witness :
  exists content message s',
    convert_markdown_to_docx source target (config 3) None (world (engine_writes 400))
    = Some (Ret (success_result content message), s')
    /\ fi_exists (get_file_info (st_env s') target) = true
    /\ (0 < engine_calls s')%nat.
Proof.
  destruct (convert_markdown_to_docx source target (config 3) None
              (world (engine_writes 400)))
    as [[[[content message|msg]|e] s']|] eqn:Hrun;
    try (vm_compute in Hrun; discriminate Hrun).
  exists content, message, s'. split; [reflexivity|].
  destruct (success_means_validated_artifact source target (config 3) None
              (world (engine_writes 400)) content message s' Hrun)
    as (_ & _ & Hex & E).
  split; [exact Hex|exact E].
Defined.

Lemma success_result_contents_witness :
  exists content message s',
    convert_markdown_to_docx source target (config 3) None (world (engine_writes 400))
    = Some (Ret (success_result content message), s')
    /\ fst content = target /\ input_size (snd content) = 500.
Proof.
  destruct (convert_markdown_to_docx source target (config 3) None
              (world (engine_writes 400)))
    as [[[[content message|msg]|e] s']|] eqn:Hrun;
    try (vm_compute in Hrun; discriminate Hrun).
  exists content, message, s'. split; [reflexivity|].
  destruct (success_result_contents source target (config 3) None
              (world (engine_writes 400)) content message s' Hrun)
    as (Hpath & _ & _ & Hin & _).
  split; [exact Hpath|].
  assert (H500 : size_taken (fi_size (get_file_info base_env source)) = Ret 500)
    by reflexivity.
  change (w_env (world (engine_writes 400))) with base_env in Hin.
  rewrite H500 in Hin. inversion Hin. reflexivity.
Defined.

Lemma failure_message_carries_recorded_error_witness :
  exists msg s' prefix text,
    convert_markdown_to_docx source target (config 2) None (world (engine_writes 10))
    = Some (Ret (error_result msg), s')
    /\ msg = prefix +:+ text
    /\ errors (st_metrics s') !! source = Some text.
Proof.
  destruct (convert_markdown_to_docx source target (config 2) None
              (world (engine_writes 10)))
    as [[[[content message|msg]|e] s']|] eqn:Hrun;
    try (vm_compute in Hrun; discriminate Hrun).
  destruct (failure_message_carries_recorded_error source target (config 2) None
              (world (engine_writes 10)) msg s')
    as (prefix & text & _ & Hmsg & Her); [simpl; lia|exact Hrun|].
  exists msg, s', prefix, text. split; [reflexivity|]. split; [exact Hmsg|exact Her].
Defined.

Lemma repeated_failure_overwrites_witness :
  exists msg1 s1 msg2 s2 text,
    convert_markdown_to_docx source target (config 1) None (world engine_broken)
    = Some (Ret (error_result msg1), s1)
    /\ convert_markdown_to_docx source target (config 2) (Some (st_metrics s1))
         (world (engine_writes 10))
       = Some (Ret (error_result msg2), s2)
    /\ errors (st_metrics s2) = <[source := text]> ∅
    /\ failed_conversions (st_metrics s2) = 2.
Proof.
  destruct (convert_markdown_to_docx source target (config 1) None (world engine_broken))
    as [[[[c1 m1|msg1]|e1] s1]|] eqn:Hrun1;
    try (vm_compute in Hrun1; discriminate Hrun1).
  destruct (convert_markdown_to_docx source target (config 2) (Some (st_metrics s1))
              (world (engine_writes 10)))
    as [[[[c2 m2|msg2]|e2] s2]|] eqn:Hrun2.
  - exfalso.
    assert (Hm : st_metrics s1
                 = mkMetrics 0 1 {[ source := "Pandoc conversion failed: pandoc died" ]} ∅)
      by (vm_compute in Hrun1; inversion Hrun1; reflexivity).
    rewrite Hm in Hrun2. vm_compute in Hrun2. discriminate Hrun2.
  - destruct (repeated_failure_overwrites source target target (config 1) (config 2)
                None (world engine_broken) (world (engine_writes 10))
                msg1 s1 msg2 s2)
      as (prefix & text & _ & _ & Er & Fa & _);
      [simpl; lia|simpl; lia|exact Hrun1|exact Hrun2|].
    exists msg1, s1, msg2, s2, text. split; [reflexivity|]. split; [exact Hrun2|].
    split; [exact Er|exact Fa].
  - exfalso.
    destruct (convert_cases source target (config 2) (Some (st_metrics s1))
                (world (engine_writes 10))) as (r & s'' & Hr & _).
    rewrite Hrun2 in Hr. discriminate Hr.
  - exfalso.
    destruct (convert_cases source target (config 2) (Some (st_metrics s1))
                (world (engine_writes 10))) as (r & s'' & Hr & _).
    rewrite Hrun2 in Hr. discriminate Hr.
Defined.

End Witness.
